(** * guilded.py: the client's connection, dispatch and cache-accessor core

    A shallow embedding of [guilded/client.py] (class [Client]) together
    with the parts of [guilded/abc.py] it constructs.  Python objects are
    values of [pyval]; dictionaries used as maps are [gmap]s keyed by
    strings; a coroutine is run against a script of answers, one per
    [await] of an external awaitable, and leaves a trace of the effects
    it performed. *)

From Stdlib Require Import ZArith Lia.
From stdpp Require Import base option list strings gmap.

Local Open Scope string_scope.
Local Open Scope Z_scope.
Local Open Scope list_scope.

(** ** Python values and exceptions *)

(** The exception classes that appear in [client.py] or reach it from the
    collaborators it awaits. *)
Inductive exn :=
  | CancelledError      (* asyncio.CancelledError *)
  | KeyboardInterrupt
  | SystemExit
  | TimeoutError        (* asyncio.TimeoutError *)
  | WebSocketClosure    (* guilded.gateway.WebSocketClosure *)
  | ClientException     (* guilded.errors.ClientException *)
  | HTTPException       (* guilded.errors.HTTPException *)
  | NameError
  | TypeError
  | AttributeError
  | ValueError
  | RuntimeError.

#[global] Instance exn_eq_dec : EqDecision exn.
Proof. solve_decision. Defined.

(** [issubclass(e, Exception)]: from Python 3.8 on (the version
    [asyncio.create_task(..., name=...)] requires) [CancelledError], like
    [KeyboardInterrupt] and [SystemExit], derives from [BaseException] only. *)
Definition derives_Exception (e : exn) : bool :=
  match e with
  | CancelledError | KeyboardInterrupt | SystemExit => false
  | _ => true
  end.

#[warnings="-register-all"]
Inductive pyval :=
  | PyNone
  | PyBool (b : bool)
  | PyInt (z : Z)
  | PyStr (s : string)
  | PyDict (items : list (string * pyval))
  | PyGWS (sock : nat)          (* an instance of GuildedWebSocket *)
  | PyObj (addr : nat).         (* any other object, with default truthiness *)

(** [bool(v)] *)
Definition truthy (v : pyval) : bool :=
  match v with
  | PyNone => false
  | PyBool b => b
  | PyInt z => negb (Z.eqb z 0)
  | PyStr s => negb (String.eqb s "")
  | PyDict items => match items with [] => false | _ => true end
  | PyGWS _ | PyObj _ => true
  end.

(** [a or b] *)
Definition py_or (a b : pyval) : pyval := if truthy a then a else b.

(** [v is False] *)
Definition is_False (v : pyval) : bool :=
  match v with PyBool false => true | _ => false end.

(** [v is None] *)
Definition is_None (v : pyval) : bool :=
  match v with PyNone => true | _ => false end.

(** [type(v) == GuildedWebSocket] *)
Definition is_GuildedWebSocket (v : pyval) : bool :=
  match v with PyGWS _ => true | _ => false end.

(** [d.get(k)] on a [dict] given by its items, each key held once. *)
Fixpoint dict_get (k : string) (items : list (string * pyval)) : option pyval :=
  match items with
  | [] => None
  | (k', v) :: items' => if String.eqb k k' then Some v else dict_get k items'
  end.

(** What awaiting (or calling) something gives back. *)
Inductive outcome :=
  | Returns (v : pyval)
  | Raises (e : exn).

(** The result of running a piece of the client: it finished with a value,
    raised, is suspended on an [await] the script has no answer for, or
    the iteration bound given to a loop was used up. *)
Inductive res (A : Type) :=
  | Done (a : A)
  | Raised (e : exn)
  | Suspended
  | OutOfFuel.
Arguments Done {A} a.
Arguments Raised {A} e.
Arguments Suspended {A}.
Arguments OutOfFuel {A}.

(** ** Handlers *)

(** A function object handed to [Client.event].  [awaited] is what awaiting
    the call [coro args] ends with; handlers are taken to accept the
    arguments the library calls them with, and their bodies are opaque:
    what they do to the client is not followed. *)
Record callable := {
  __name__ : string;
  iscoroutinefunction : bool;       (* asyncio.iscoroutinefunction(coro) *)
  awaited : list pyval -> outcome
}.

(** A coroutine object given to the event loop. *)
Inductive coroutine :=
  | CoHandler (coro : callable) (args : list pyval)
      (* the handler called on the arguments *)
  | CoRunEvent (coro : callable) (event_name : string) (args : list pyval).
      (* self._run_event called on coro, event_name and the arguments *)

(** ** Entities (guilded/abc.py) *)

(** The fields of [abc.User] that are read straight from the payload; those
    built by [Presence], [Activity], [Asset] and [ISO8601] are left out. *)
Record User := {
  u_id : option pyval;          (* data.get('id') *)
  u_name : option pyval;        (* data.get('name') *)
  u_subdomain : option pyval;
  u_email : option pyval
}.

Record Channel := {
  ch_id : option pyval;
  ch_team : bool                (* a team channel, or a DM channel *)
}.

(** [isinstance(v, dict)] *)
Definition is_dict (v : pyval) : bool :=
  match v with PyDict _ => true | _ => false end.

(** The two places where [User.__init__] calls [get] on a value of the
    payload: [(data.get('aboutInfo') or {}).get(..)], on [aboutInfo] when
    it is truthy, and [data.get('userStatus', {}).get('content')], on
    [userStatus] whenever the key is there.  Anything but a mapping there
    raises [AttributeError]. *)
Definition user_payload_ok (items : list (string * pyval)) : bool :=
  match dict_get "aboutInfo" items with
  | Some v => if truthy v then is_dict v else true
  | None => true
  end &&
  match dict_get "userStatus" items with
  | Some v => is_dict v
  | None => true
  end.

(** The body of [User.__init__] on the payload it settles on.  The calls
    into [Presence], [Activity], [Asset] and [ISO8601], which are not part
    of the sources at hand, are taken to return. *)
Definition user_fields (items : list (string * pyval)) : res User :=
  if user_payload_ok items then
    Done {| u_id := dict_get "id" items; u_name := dict_get "name" items;
            u_subdomain := dict_get "subdomain" items;
            u_email := dict_get "email" items |}
  else Raised AttributeError.

(** [User.__init__(state, data)]; [data = data.get('user', data)] comes
    first. *)
Definition User_init (data : pyval) : res User :=
  match data with
  | PyDict items =>
      match dict_get "user" items with
      | Some (PyDict inner) => user_fields inner
      | Some _ => Raised AttributeError
      | None => user_fields items
      end
  | _ => Raised AttributeError
  end.

(** ** The REST client and the client object *)

Inductive request :=
  | GET (path : string).

(** Modelled from the spec: [guilded/http.py] (class [HTTPClient]) is not
    part of the sources at hand.  It holds the token, the entity caches
    (maps from ID to entity, read with pure in-memory lookups) and issues
    the REST calls; [requests] records the calls issued so far. *)
Record HTTPClient := {
  token : pyval;
  http_ws : pyval;
  _users : gmap string User;
  _team_channels : gmap string Channel;
  _dm_channels : gmap string Channel;
  requests : list request
}.

(** The attributes of a [Client] that the methods below read or write.
    [attrs] holds the attributes [event] sets with [setattr] under names
    the client does not use itself; of these only [on_error] is looked up
    again by the code modelled here.  [loop] is the
    list of tasks created on the event loop and not yet run. *)
Record Client := {
  http : HTTPClient;
  max_messages : pyval;
  _closed : bool;
  _ready : bool;                          (* asyncio.Event *)
  disable_team_websockets : pyval;
  _listeners : gmap string callable;
  cache_on_startup : gmap string pyval;
  ws : pyval;
  attrs : gmap string callable;           (* attributes set with setattr *)
  loop : list coroutine                   (* tasks created on the event loop *)
}.

Definition set_http (h : HTTPClient) (c : Client) : Client :=
  {| http := h; max_messages := max_messages c; _closed := _closed c;
     _ready := _ready c; disable_team_websockets := disable_team_websockets c;
     _listeners := _listeners c; cache_on_startup := cache_on_startup c;
     ws := ws c; attrs := attrs c; loop := loop c |}.

Definition set_closed (b : bool) (c : Client) : Client :=
  {| http := http c; max_messages := max_messages c; _closed := b;
     _ready := _ready c; disable_team_websockets := disable_team_websockets c;
     _listeners := _listeners c; cache_on_startup := cache_on_startup c;
     ws := ws c; attrs := attrs c; loop := loop c |}.

Definition set_ready (b : bool) (c : Client) : Client :=
  {| http := http c; max_messages := max_messages c; _closed := _closed c;
     _ready := b; disable_team_websockets := disable_team_websockets c;
     _listeners := _listeners c; cache_on_startup := cache_on_startup c;
     ws := ws c; attrs := attrs c; loop := loop c |}.

Definition set_listeners (l : gmap string callable) (c : Client) : Client :=
  {| http := http c; max_messages := max_messages c; _closed := _closed c;
     _ready := _ready c; disable_team_websockets := disable_team_websockets c;
     _listeners := l; cache_on_startup := cache_on_startup c;
     ws := ws c; attrs := attrs c; loop := loop c |}.

Definition set_attrs (a : gmap string callable) (c : Client) : Client :=
  {| http := http c; max_messages := max_messages c; _closed := _closed c;
     _ready := _ready c; disable_team_websockets := disable_team_websockets c;
     _listeners := _listeners c; cache_on_startup := cache_on_startup c;
     ws := ws c; attrs := a; loop := loop c |}.

Definition set_ws (w : pyval) (c : Client) : Client :=
  {| http := http c; max_messages := max_messages c; _closed := _closed c;
     _ready := _ready c; disable_team_websockets := disable_team_websockets c;
     _listeners := _listeners c; cache_on_startup := cache_on_startup c;
     ws := w; attrs := attrs c; loop := loop c |}.

Definition set_loop (l : list coroutine) (c : Client) : Client :=
  {| http := http c; max_messages := max_messages c; _closed := _closed c;
     _ready := _ready c; disable_team_websockets := disable_team_websockets c;
     _listeners := _listeners c; cache_on_startup := cache_on_startup c;
     ws := ws c; attrs := attrs c; loop := l |}.

Definition set_token (t : pyval) (h : HTTPClient) : HTTPClient :=
  {| token := t; http_ws := http_ws h; _users := _users h;
     _team_channels := _team_channels h; _dm_channels := _dm_channels h;
     requests := requests h |}.

Definition set_http_ws (w : pyval) (h : HTTPClient) : HTTPClient :=
  {| token := token h; http_ws := w; _users := _users h;
     _team_channels := _team_channels h; _dm_channels := _dm_channels h;
     requests := requests h |}.

Definition add_request (r : request) (h : HTTPClient) : HTTPClient :=
  {| token := token h; http_ws := http_ws h; _users := _users h;
     _team_channels := _team_channels h; _dm_channels := _dm_channels h;
     requests := requests h ++ [r] |}.

(** Modelled from the spec: a fresh [HTTPClient] has no token configured,
    empty caches and has issued no call. *)
Definition HTTPClient_init : HTTPClient :=
  {| token := PyNone; http_ws := PyNone; _users := ∅;
     _team_channels := ∅; _dm_channels := ∅; requests := [] |}.

(** ** [Client.__init__] *)

(** [options.pop(key, default)] *)
Definition pop_default (key : string) (default : pyval)
    (options : gmap string pyval) : pyval :=
  match options !! key with
  | Some v => v
  | None => default
  end.

(** [cache_on_startup.get(key) or True] *)
Definition startup_flag (key : string) (cache_opt : list (string * pyval)) : pyval :=
  py_or (match dict_get key cache_opt with Some v => v | None => PyNone end)
        (PyBool true).

Definition Client_init (options : gmap string pyval) : res Client :=
  match pop_default "cache_on_startup" (PyDict []) options with
  | PyDict cache_opt =>
      Done {| http := HTTPClient_init;
              max_messages := pop_default "max_messages" (PyInt 1000) options;
              _closed := false;
              _ready := false;
              disable_team_websockets :=
                pop_default "disable_team_websockets" (PyBool false) options;
              _listeners := ∅;
              cache_on_startup :=
                <["channels" := startup_flag "channels" cache_opt]>
                  (<["members" := startup_flag "members" cache_opt]> ∅);
              ws := PyNone;
              attrs := ∅;
              loop := [] |}
  | _ => Raised AttributeError      (* no attribute 'get' *)
  end.

(** ** Handler registration and dispatch *)

(** The properties of [Client]; none of them has a setter. *)
Definition read_only_properties : list string :=
  ["cached_messages"; "emojis"; "teams"; "users"; "members"; "dm_channels";
   "private_channels"; "team_channels"; "channels"; "guilds"; "latency";
   "closed"].

(** The instance attributes of a [Client] and its methods, [on_error]
    apart. *)
Definition own_attributes : list string :=
  ["loop"; "max_messages"; "http"; "_closed"; "_ready"; "user";
   "disable_team_websockets"; "_login_presence"; "_login_status";
   "_listeners"; "cache_on_startup"; "ws";
   "is_ready"; "wait_until_ready"; "_run_event"; "_schedule_event"; "event";
   "dispatch"; "connect"; "close"; "run"; "get_message"; "get_team";
   "get_user"; "get_channel"; "fetch_user"; "getch_user"].

(** What [setattr(self, name, coro)] meets under [name]: a property, which
    refuses the assignment; one of the client's own attributes or methods,
    or a name of the object protocol (two leading underscores), which the
    assignment replaces or which refuses it in its own way; or nothing the
    client uses, [on_error] included, which [_run_event] looks up on the
    instance. *)
Inductive name_kind := ReadOnlyProperty | OwnAttribute | PlainName.

Definition kind_of_name (name : string) : name_kind :=
  if existsb (String.eqb name) read_only_properties then ReadOnlyProperty
  else if existsb (String.eqb name) own_attributes || String.prefix "__" name
  then OwnAttribute
  else PlainName.

(** What [Client.event] ends with: it returned [coro]; it raised and
    registered nothing; or it was given a function named after one of the
    client's own attributes or methods, which the code replaces by the
    function: the client is from then on not one the record above
    describes, and is not followed (the client given back with this
    result is the one passed in). *)
Inductive registration :=
  | Registered (coro : callable)
  | Refused (e : exn)
  | Untracked (name : string).

(** [Client.event(coro)] *)
Definition event (coro : callable) (c : Client) : registration * Client :=
  if negb (iscoroutinefunction coro) then (Refused TypeError, c)
  else
    match kind_of_name (__name__ coro) with
    | ReadOnlyProperty => (Refused AttributeError, c)
    | OwnAttribute => (Untracked (__name__ coro), c)
    | PlainName =>
        let c1 := set_attrs (<[__name__ coro := coro]> (attrs c)) c in
        let c2 := set_listeners (<[__name__ coro := coro]> (_listeners c1)) c1 in
        (Registered coro, c2)
    end.

(** [self.loop.create_task(co)] *)
Definition create_task (co : coroutine) (c : Client) : Client :=
  set_loop (loop c ++ [co]) c.

(** [Client.dispatch(event_name, args)]; a function object is truthy, so
    [not coro] holds exactly when the lookup gave [None]. *)
Definition dispatch (event_name : string) (args : list pyval) (c : Client)
    : res unit * Client :=
  match _listeners c !! ("on_" +:+ event_name) with
  | None => (Done tt, c)
  | Some coro => (Done tt, create_task (CoHandler coro args) c)
  end.

(** ** Running handlers *)

(** The calls a coroutine makes into user code. *)
Inductive call :=
  | CallHandler (coro : callable) (args : list pyval)
  | CallOnError (event_method : string) (args : list pyval).

(** [self.on_error(event_method, args)]: the method of the class prints the
    traceback and returns; a coroutine registered with [event] under the
    name [on_error] is set on the instance and shadows it. *)
Definition on_error (c : Client) (event_method : string) (args : list pyval)
    : outcome :=
  match attrs c !! "on_error" with
  | Some f => awaited f (PyStr event_method :: args)
  | None => Returns PyNone
  end.

(** [Client._run_event(coro, event_name, args)]: what the coroutine ends
    with and the calls it made, in order. *)
Definition _run_event (c : Client) (coro : callable) (event_name : string)
    (args : list pyval) : outcome * list call :=
  match awaited coro args with
  | Returns _ => (Returns PyNone, [CallHandler coro args])
  | Raises CancelledError => (Returns PyNone, [CallHandler coro args])
  | Raises e =>
      if derives_Exception e then
        match on_error c event_name args with
        | Returns _ | Raises CancelledError =>
            (Returns PyNone,
             [CallHandler coro args; CallOnError event_name args])
        | Raises e' =>
            (Raises e', [CallHandler coro args; CallOnError event_name args])
        end
      else (Raises e, [CallHandler coro args])
  end.

(** [Client._schedule_event(coro, event_name, args)] *)
Definition _schedule_event (coro : callable) (event_name : string)
    (args : list pyval) (c : Client) : coroutine * Client :=
  let wrapped := CoRunEvent coro event_name args in
  (wrapped, create_task wrapped c).

(** Running one task's coroutine to its end. *)
Definition run_coroutine (c : Client) (co : coroutine) : outcome * list call :=
  match co with
  | CoHandler coro args => (awaited coro args, [CallHandler coro args])
  | CoRunEvent coro event_name args => _run_event c coro event_name args
  end.

(** The event loop running the tasks created on it, in creation order.
    As asyncio's [Task] does, an exception that ends a task's coroutine is
    kept on the task, and [KeyboardInterrupt] and [SystemExit] are raised
    again out of the loop. *)
Fixpoint run_tasks (c : Client) (tasks : list coroutine)
    : list outcome * list call * option exn :=
  match tasks with
  | [] => ([], [], None)
  | co :: tasks' =>
      let '(r, calls) := run_coroutine c co in
      match r with
      | Raises KeyboardInterrupt => ([r], calls, Some KeyboardInterrupt)
      | Raises SystemExit => ([r], calls, Some SystemExit)
      | _ =>
          let '(rs, calls', esc) := run_tasks c tasks' in
          (r :: rs, calls ++ calls', esc)
      end
  end.

(** ** [Client.close] *)

(** [await ws.close(code=1000)] in the body of [close]: the name [ws] is
    bound neither in [close] (whose only local is [self]) nor at module
    level, so evaluating it raises [NameError] before anything is sent. *)
Definition close_frame : outcome := Raises NameError.

(** [close] with the attempt to send the close frame ending in [frame]. *)
Definition close_with (frame : outcome) (c : Client) : res unit * Client :=
  if _closed c then (Done tt, c)
  else
    match frame with
    | Raises e =>
        if derives_Exception e then
          (Done tt, set_ready false (set_closed true c))
        else (Raised e, c)
    | Returns _ => (Done tt, set_ready false (set_closed true c))
    end.

(** [Client.close()] *)
Definition close (c : Client) : res unit * Client := close_with close_frame c.

(** ** Cache accessors and REST-backed fetches *)

(** Modelled from the spec: [HTTPClient._get_user],
    [HTTPClient._get_global_team_channel] and [HTTPClient._get_dm_channel]
    are lookups in the entity cache. *)
Definition _get_user (h : HTTPClient) (id : string) : option User :=
  _users h !! id.

Definition _get_global_team_channel (h : HTTPClient) (id : string)
    : option Channel := _team_channels h !! id.

Definition _get_dm_channel (h : HTTPClient) (id : string) : option Channel :=
  _dm_channels h !! id.

(** [Client.get_user(id)] *)
Definition get_user (id : string) (c : Client) : option User * Client :=
  (_get_user (http c) id, c).

(** [Client.get_channel(id)]; channel objects are truthy, so [or] takes the
    second lookup exactly when the first gave [None]. *)
Definition get_channel (id : string) (c : Client) : option Channel * Client :=
  (match _get_global_team_channel (http c) id with
   | Some ch => Some ch
   | None => _get_dm_channel (http c) id
   end, c).

Section REST.

(** What the platform answers to a request. *)
Variable server : request -> outcome.

(** Modelled from the spec: [HTTPClient.get_user(id)] issues one REST
    call, fetch-user-by-id, and gives back the decoded payload or fails. *)
Definition http_get_user (id : string) (h : HTTPClient)
    : outcome * HTTPClient :=
  let rq := GET ("/users/" +:+ id) in
  (server rq, add_request rq h).

(** [Client.fetch_user(id)] *)
Definition fetch_user (id : string) (c : Client) : res User * Client :=
  let '(r, h) := http_get_user id (http c) in
  let c' := set_http h c in
  match r with
  | Raises e => (Raised e, c')
  | Returns user => (User_init user, c')
  end.

(** [Client.getch_user(id)]; a [User] is truthy. *)
Definition getch_user (id : string) (c : Client) : res User * Client :=
  match get_user id c with
  | (Some u, c') => (Done u, c')
  | (None, c') => fetch_user id c'
  end.

End REST.

(** ** [Client.connect] *)

(** The three [log.warning] calls of [listen_socks]. *)
Inductive log_record :=
  | LogClosed                     (* closed, not reconnecting *)
  | LogReconnecting (secs : Z)    (* closed, reconnecting in [secs] seconds *)
  | LogTimedOut.                  (* timed out trying to reconnect *)

(** The effects of [connect], in the order they happen. *)
Inductive action :=
  | ABuild                        (* wait_for(GuildedWebSocket.build(..), 60) *)
  | APoll (sock : pyval)          (* ws.poll_event() *)
  | ALog (r : log_record)
  | ADispatch (event_name : string) (args : list pyval)
  | ASleep (secs : Z)             (* asyncio.sleep(secs) *)
  | AClose.                       (* self.close() *)

(** A run of a coroutine against a script: its result, the answers left
    unread, the client it leaves and the effects it performed. *)
Record run := {
  result : res unit;
  rest : list outcome;
  final : Client;
  events : list action
}.

Definition stop (r : res unit) (script : list outcome) (c : Client) : run :=
  {| result := r; rest := script; final := c; events := [] |}.

Definition emit (acts : list action) (r : run) : run :=
  {| result := result r; rest := rest r; final := final r;
     events := acts ++ events r |}.

(** A call made for its effect on the client: go on when it returns, let
    its exception through otherwise. *)
Definition after (x : res unit * Client) (script : list outcome)
    (k : Client -> run) : run :=
  match x with
  | (Done _, c) => k c
  | (Raised e, c) => stop (Raised e) script c
  | (Suspended, c) => stop Suspended script c
  | (OutOfFuel, c) => stop OutOfFuel script c
  end.

(** The [while True and ws is not None] loop of [listen_socks].  The script
    answers, in turn, each [ws.poll_event()] and each
    [wait_for(build, timeout=60)]; [asyncio.sleep] completes, and no other
    task touches the client while the loop is suspended.  A value that is
    not a [GuildedWebSocket] has no [poll_event]. *)
Fixpoint listen_loop (reconnect : pyval) (script : list outcome) (ws : pyval)
    (next_backoff_time : Z) (c : Client) {struct script} : run :=
  if is_None ws then stop (Done tt) script c
  else if negb (is_GuildedWebSocket ws) then stop (Raised AttributeError) script c
  else
    match script with
    | [] => emit [APoll ws] (stop Suspended [] c)
    | Returns _ :: script' =>
        (* else: next_backoff_time = 5 *)
        emit [APoll ws] (listen_loop reconnect script' ws 5 c)
    | Raises e :: script' =>
        if decide (e = WebSocketClosure) then
          if is_False reconnect then
            emit [APoll ws; ALog LogClosed; AClose]
              (after (close c) script' (fun c' => stop (Done tt) script' c'))
          else
            emit [APoll ws; ALog (LogReconnecting next_backoff_time);
                  ADispatch "disconnect" []]
              (after (dispatch "disconnect" [] c) script' (fun c1 =>
                 emit [ASleep next_backoff_time; ABuild]
                   match script' with
                   | [] => stop Suspended [] c1
                   | Returns ws' :: script'' =>
                       listen_loop reconnect script'' ws' next_backoff_time c1
                   | Raises e' :: script'' =>
                       if decide (e' = TimeoutError) then
                         emit [ALog LogTimedOut]
                           (listen_loop reconnect script'' ws
                              (next_backoff_time + 5) c1)
                       else stop (Raised e') script'' c1
                   end))
        else emit [APoll ws] (stop (Raised e) script' c)
    end.

(** [listen_socks(ws)] *)
Definition listen_socks (reconnect : pyval) (script : list outcome) (ws : pyval)
    (c : Client) : run :=
  listen_loop reconnect script ws 5 c.

(** The [while not self.closed] loop of [connect]; [fuel] bounds the number
    of its iterations. *)
Fixpoint connect_loop (fuel : nat) (reconnect : pyval) (script : list outcome)
    (c : Client) : run :=
  if _closed c then stop (Done tt) script c
  else
    match fuel with
    | O => stop OutOfFuel script c
    | S fuel' =>
        emit [ABuild]
          match script with
          | [] => stop Suspended [] c
          | Raises e :: script' => stop (Raised e) script' c
          | Returns gws :: script' =>
              if negb (is_GuildedWebSocket gws) then
                emit [ADispatch "error" [gws]]
                  (after (dispatch "error" [gws] c) script' (fun c' =>
                     stop (Done tt) script' c'))
              else
                let c1 := set_ws gws c in
                let c2 := set_http (set_http_ws (ws c1) (http c1)) c1 in
                emit [ADispatch "connect" []]
                  (after (dispatch "connect" [] c2) script' (fun c3 =>
                     let c4 := set_ready true c3 in
                     emit [ADispatch "ready" []]
                       (after (dispatch "ready" [] c4) script' (fun c5 =>
                          let r := listen_socks reconnect script' (ws c5) c5 in
                          match result r with
                          | Done _ =>
                              emit (events r)
                                (connect_loop fuel' reconnect (rest r) (final r))
                          | _ => r
                          end))))
          end
    end.

(** [Client.connect(token, reconnect)].  Every iteration of the loop reads
    at least one answer, so one more iteration than the script has answers
    is never used up (see [connect_total]). *)
Definition connect (token_arg reconnect : pyval) (script : list outcome)
    (c : Client) : run :=
  let c0 := set_http (set_token (py_or token_arg (token (http c))) (http c)) c in
  if negb (truthy (token (http c0))) then stop (Raised ClientException) script c0
  else connect_loop (S (length script)) reconnect script c0.

(** ** Observations on runs *)

(** The durations slept, in order. *)
Definition sleeps (tr : list action) : list Z :=
  omap (fun a => match a with ASleep secs => Some secs | _ => None end) tr.


(** The steps of the reconnect protocol visible in a trace: a connection
    attempt, a closure noticed (each is logged), a [disconnect]
    notification, a wait. *)
Inductive step_kind := KBuild | KClosure | KDisconnect | KSleep.

Definition kind_of (a : action) : option step_kind :=
  match a with
  | ABuild => Some KBuild
  | ALog LogClosed | ALog (LogReconnecting _) => Some KClosure
  | ADispatch event_name _ =>
      if String.eqb event_name "disconnect" then Some KDisconnect else None
  | ASleep _ => Some KSleep
  | _ => None
  end.

Definition kinds (tr : list action) : list step_kind := omap kind_of tr.


(** How a reconnect attempt that lets the listening loop go on ends: with
    a new websocket, or timed out. *)
Inductive reconnect_answer :=
  | Reconnected (sock : nat)
  | TimedOut.

(** What the collaborators answer around one closure: the events polled
    before it, the closure, and the answer to the reconnect attempt. *)
Definition closure : Type := list pyval * reconnect_answer.

Definition closure_script (cl : closure) : list outcome :=
  (Returns <$> cl.1) ++
  [Raises WebSocketClosure;
   match cl.2 with
   | Reconnected sock => Returns (PyGWS sock)
   | TimedOut => Raises TimeoutError
   end].

(** A script in which the websocket is closed once per element of [cls]. *)
Definition closures_script (cls : list closure) : list outcome :=
  concat (closure_script <$> cls).

(** The pattern of a reconnecting run: every closure is followed by one
    [disconnect] notification, the wait and the reconnect attempt. *)
Definition reconnect_cycles (k : nat) : list step_kind :=
  concat (replicate k [KClosure; KDisconnect; KSleep; KBuild]).

(** The tasks [k] notifications create. *)
Definition disconnect_tasks (k : nat) (c : Client) : list coroutine :=
  match _listeners c !! "on_disconnect" with
  | Some coro => replicate k (CoHandler coro [])
  | None => []
  end.

(** An event to run a handler for: the handler, the event's name and the
    arguments. *)
Definition occurrence : Type := callable * string * list pyval.

Definition schedule_all (evs : list occurrence) (c : Client) : Client :=
  foldl (fun c ev => (_schedule_event ev.1.1 ev.1.2 ev.2 c).2) c evs.

(** The handler ended with an exception deriving from [Exception]. *)
Definition fails (o : outcome) : bool :=
  match o with
  | Raises e => derives_Exception e
  | Returns _ => false
  end.

(** The handler returned, was cancelled, or failed as above. *)
Definition recoverable (o : outcome) : bool :=
  match o with
  | Raises e => derives_Exception e || bool_decide (e = CancelledError)
  | Returns _ => true
  end.

(** What a task ends with is raised again out of the loop, as asyncio does
    with [KeyboardInterrupt] and [SystemExit]. *)
Definition loop_fatal (o : outcome) : bool :=
  match o with
  | Raises KeyboardInterrupt | Raises SystemExit => true
  | _ => false
  end.

Definition is_on_error_call (x : call) : bool :=
  match x with CallOnError _ _ => true | CallHandler _ _ => false end.

Definition on_error_calls (calls : list call) : nat :=
  length (List.filter is_on_error_call calls).

(** The calls one occurrence gives rise to when nothing escapes. *)
Definition calls_of (ev : occurrence) : list call :=
  CallHandler ev.1.1 ev.2 ::
  (if fails (awaited ev.1.1 ev.2) then [CallOnError ev.1.2 ev.2] else []).

(** ** Sample values *)

Definition sample_client : Client :=
  {| http := HTTPClient_init; max_messages := PyInt 1000; _closed := false;
     _ready := false; disable_team_websockets := PyBool false;
     _listeners := ∅; cache_on_startup := ∅; ws := PyNone; attrs := ∅;
     loop := [] |}.

(** [async def name(args): return None] *)
Definition quiet_handler (name : string) : callable :=
  {| __name__ := name; iscoroutinefunction := true;
     awaited := fun _ => Returns PyNone |}.

(** [async def name(args): raise e] *)
Definition raising_handler (name : string) (e : exn) : callable :=
  {| __name__ := name; iscoroutinefunction := true;
     awaited := fun _ => Raises e |}.


(** ** State properties of the client *)

(** [Client.closed] *)
Definition closed (c : Client) : bool := _closed c.

(** [Client.is_ready()] *)
Definition is_ready (c : Client) : bool := _ready c.

(** ** Team members (guilded/user.py) *)

(** The value of an attribute read with [data.get]: [None] when the key
    was missing. *)
Definition attr (o : option pyval) : pyval :=
  match o with
  | Some v => v
  | None => PyNone
  end.

(** What [self.team] holds: a team object, whose [id] can be read, or
    something without that attribute ([None], or the raw payload). *)
Inductive team_value :=
  | TeamObject (team_id : pyval)
  | NoTeamObject.

(** The attributes of a [Member] that [edit] and [display_name] use. *)
Record Member := {
  m_user : User;
  m_team : team_value;
  m_nick : pyval;
  m_xp : pyval
}.

Definition set_nick (nick : pyval) (m : Member) : Member :=
  {| m_user := m_user m; m_team := m_team m; m_nick := nick; m_xp := m_xp m |}.

Definition set_xp (xp : pyval) (m : Member) : Member :=
  {| m_user := m_user m; m_team := m_team m; m_nick := m_nick m; m_xp := xp |}.

(** The calls [Member.edit] makes on the HTTP client, with their
    arguments. *)
Inductive state_call :=
  | reset_team_member_nickname (team_id user_id : pyval)
  | change_team_member_nickname (team_id user_id nick : pyval)
  | set_team_member_xp (team_id user_id xp : pyval).

(** A run of [edit] against the answers to the calls it awaits. *)
Record member_run := {
  m_result : res unit;
  m_rest : list outcome;
  m_final : Member;
  m_calls : list state_call
}.

(** [await call]; on return go on with [k]. *)
Definition await_call (call : state_call) (script : list outcome) (m : Member)
    (k : Member) : member_run :=
  match script with
  | [] =>
      {| m_result := Suspended; m_rest := []; m_final := m; m_calls := [call] |}
  | Raises e :: script' =>
      {| m_result := Raised e; m_rest := script'; m_final := m;
         m_calls := [call] |}
  | Returns _ :: script' =>
      {| m_result := Done tt; m_rest := script'; m_final := k;
         m_calls := [call] |}
  end.

(** The [nick] clause of [Member.edit]: [self.team.id] is evaluated before
    the call is made. *)
Definition edit_nick (kwargs : gmap string pyval) (script : list outcome)
    (m : Member) : member_run :=
  match kwargs !! "nick" with
  | None =>
      {| m_result := Done tt; m_rest := script; m_final := m; m_calls := [] |}
  | Some nick =>
      match m_team m with
      | NoTeamObject =>
          {| m_result := Raised AttributeError; m_rest := script;
             m_final := m; m_calls := [] |}
      | TeamObject team_id =>
          await_call
            (if is_None nick
             then reset_team_member_nickname team_id (attr (u_id (m_user m)))
             else change_team_member_nickname team_id (attr (u_id (m_user m)))
                    nick)
            script m (set_nick nick m)
      end
  end.

(** The [xp] clause of [Member.edit]. *)
Definition edit_xp (kwargs : gmap string pyval) (script : list outcome)
    (m : Member) : member_run :=
  match kwargs !! "xp" with
  | None =>
      {| m_result := Done tt; m_rest := script; m_final := m; m_calls := [] |}
  | Some xp =>
      match m_team m with
      | NoTeamObject =>
          {| m_result := Raised AttributeError; m_rest := script;
             m_final := m; m_calls := [] |}
      | TeamObject team_id =>
          await_call (set_team_member_xp team_id (attr (u_id (m_user m))) xp)
            script m (set_xp xp m)
      end
  end.

(** [Member.edit(kwargs)] *)
Definition edit (kwargs : gmap string pyval) (script : list outcome)
    (m : Member) : member_run :=
  let r1 := edit_nick kwargs script m in
  match m_result r1 with
  | Done _ =>
      let r2 := edit_xp kwargs (m_rest r1) (m_final r1) in
      {| m_result := m_result r2; m_rest := m_rest r2; m_final := m_final r2;
         m_calls := m_calls r1 ++ m_calls r2 |}
  | _ => r1
  end.

(** [Member.display_name] *)
Definition display_name (m : Member) : pyval :=
  py_or (m_nick m) (attr (u_name (m_user m))).

(** The call the [nick] clause makes for [nick]. *)
Definition nick_call (team_id : pyval) (m : Member) (nick : pyval)
    : state_call :=
  if is_None nick
  then reset_team_member_nickname team_id (attr (u_id (m_user m)))
  else change_team_member_nickname team_id (attr (u_id (m_user m))) nick.

Definition sample_member : Member :=
  {| m_user := {| u_id := Some (PyStr "m1"); u_name := Some (PyStr "Ann");
                  u_subdomain := None; u_email := None |};
     m_team := TeamObject (PyStr "t1");
     m_nick := PyStr "annie";
     m_xp := PyInt 10 |}.

(** ** Messages (guilded/message.py) *)

(** What building an entity from a payload can fail with. *)
Inductive py_error :=
  | KeyError (key : string)
  | Error (e : exn).

Inductive built (A : Type) :=
  | Built (a : A)
  | Failed (e : py_error).
Arguments Built {A} a.
Arguments Failed {A} e.

#[global] Instance built_ret : MRet built := fun A a => Built a.
#[global] Instance built_bind : MBind built := fun A B k x =>
  match x with
  | Built a => k a
  | Failed e => Failed e
  end.

(** [v[key]]: a missing key of a [dict] is a [KeyError]; the other values
    here take no string subscript. *)
Definition subscript (v : pyval) (key : string) : built pyval :=
  match v with
  | PyDict items =>
      match dict_get key items with
      | Some x => Built x
      | None => Failed (KeyError key)
      end
  | _ => Failed (Error TypeError)
  end.

(** [v.get(key)], [None] standing for a missing key *)
Definition get (v : pyval) (key : string) : built (option pyval) :=
  match v with
  | PyDict items => Built (dict_get key items)
  | _ => Failed (Error AttributeError)
  end.

Definition of_outcome (o : outcome) : built pyval :=
  match o with
  | Returns v => Built v
  | Raises e => Failed (Error e)
  end.

(** A user or member object as a message refers to it: the entity and its
    [bot] attribute. *)
Record author_obj := {
  a_user : User;
  a_bot : pyval
}.

(** The channel object a message is built in: its [id] and, when it has
    one, its [team] attribute. *)
Record message_channel := {
  mc_id : pyval;
  mc_team : option pyval
}.

Record ChatMessage := {
  msg_id : pyval;
  msg_channel : option message_channel;
  msg_channel_id : pyval;
  msg_team : pyval;
  msg_team_id : pyval;
  msg_created_at : pyval;
  msg_updated_at : pyval;
  msg_deleted_at : pyval;
  msg_webhook_id : pyval;
  msg_bot_id : pyval;
  msg_author : option author_obj;
  msg_author_id : pyval;
  msg_content : pyval
}.

(** [ChatMessage.created_by_bot], on the attributes it reads: an author
    object is truthy. *)
Definition created_by_bot_of (author : option author_obj)
    (webhook_id bot_id : pyval) : pyval :=
  match author with
  | Some a => a_bot a
  | None => PyBool (negb (is_None webhook_id) || negb (is_None bot_id))
  end.

Definition created_by_bot (m : ChatMessage) : pyval :=
  created_by_bot_of (msg_author m) (msg_webhook_id m) (msg_bot_id m).

(** [author.bot = value] *)
Definition set_bot (value : pyval) (a : author_obj) : author_obj :=
  {| a_user := a_user a; a_bot := value |}.

(** [data.get('message', data)] *)
Definition message_part (data : pyval) : built pyval :=
  o ← get data "message"; mret (default data o).

(** [webhook_id or bot_id or message['createdBy']] *)
Definition author_id_of (webhook_id bot_id message : pyval) : built pyval :=
  if truthy webhook_id then Built webhook_id
  else if truthy bot_id then Built bot_id
  else subscript message "createdBy".

Section Messages.

(** [utils.ISO8601], which is not part of the sources at hand. *)
Variable ISO8601 : pyval -> outcome.

(** [str.lower] *)
Variable lower : string -> string.

(** The lookups and the constructor of the HTTP client that a message
    resolves its author with: [_get_team_member(team_id, id)],
    [_get_user(id)] and [create_user(data)]. *)
Variable lookup_team_member : pyval -> pyval -> option author_obj.
Variable lookup_user : pyval -> option author_obj.
Variable create_user : pyval -> built author_obj.

(** [data.get('channelType', '').lower()] *)
Definition channel_type (data : pyval) : built string :=
  o ← get data "channelType";
  match default (PyStr "") o with
  | PyStr s => Built (lower s)
  | _ => Failed (Error AttributeError)
  end.

(** The author of a message built without one given. *)
Definition resolve_author (data team team_id author_id : pyval)
    : built (option author_obj) :=
  ct ← channel_type data;
  if String.eqb ct "team" && negb (is_None team) then
    Built (lookup_team_member team_id author_id)
  else if String.eqb ct "dm" || is_None team then
    Built (lookup_user author_id)
  else
    info ← get data "createdByInfo";
    if truthy (attr info) then
      payload ← subscript data "createdByInfo";
      a ← create_user payload;
      Built (Some a)
    else Built None.

(** [ChatMessage.__init__(state, channel, data, team=..., author=...)] *)
Definition ChatMessage_init (channel : option message_channel) (data : pyval)
    (extra_team : pyval) (extra_author : option author_obj)
    : built ChatMessage :=
  message ← message_part data;
  id ← subscript message "id";
  channel_id ← subscript message "channelId";
  let team :=
    py_or extra_team
      (match channel with Some ch => attr (mc_team ch) | None => PyNone end) in
  team_id ← get message "teamId";
  created ← get data "createdAt";
  created_at ← of_outcome (ISO8601 (attr created));
  updated ← get message "updatedAt";
  updated_at ← of_outcome (ISO8601 (attr updated));
  deleted ← get message "deletedAt";
  deleted_at ← of_outcome (ISO8601 (attr deleted));
  webhook_id ← get message "createdByWebhookId";
  bot_id ← get message "createdByBotId";
  author_id ← author_id_of (attr webhook_id) (attr bot_id) message;
  author ← match extra_author with
            | Some a => Built (Some a)
            | None => resolve_author data team (attr team_id) author_id
            end;
  let author' :=
    match author with
    | Some a =>
        Some (set_bot (created_by_bot_of author (attr webhook_id) (attr bot_id)) a)
    | None => None
    end in
  content ← get message "content";
  Built {| msg_id := id; msg_channel := channel; msg_channel_id := channel_id;
           msg_team := team; msg_team_id := attr team_id;
           msg_created_at := created_at; msg_updated_at := updated_at;
           msg_deleted_at := deleted_at;
           msg_webhook_id := attr webhook_id; msg_bot_id := attr bot_id;
           msg_author := author'; msg_author_id := author_id;
           msg_content := default (PyStr "") content |}.

End Messages.

Definition set_content (content : pyval) (m : ChatMessage) : ChatMessage :=
  {| msg_id := msg_id m; msg_channel := msg_channel m;
     msg_channel_id := msg_channel_id m; msg_team := msg_team m;
     msg_team_id := msg_team_id m; msg_created_at := msg_created_at m;
     msg_updated_at := msg_updated_at m; msg_deleted_at := msg_deleted_at m;
     msg_webhook_id := msg_webhook_id m; msg_bot_id := msg_bot_id m;
     msg_author := msg_author m; msg_author_id := msg_author_id m;
     msg_content := content |}.

Definition set_updated_at (t : pyval) (m : ChatMessage) : ChatMessage :=
  {| msg_id := msg_id m; msg_channel := msg_channel m;
     msg_channel_id := msg_channel_id m; msg_team := msg_team m;
     msg_team_id := msg_team_id m; msg_created_at := msg_created_at m;
     msg_updated_at := t; msg_deleted_at := msg_deleted_at m;
     msg_webhook_id := msg_webhook_id m; msg_bot_id := msg_bot_id m;
     msg_author := msg_author m; msg_author_id := msg_author_id m;
     msg_content := msg_content m |}.

(** [ChatMessage.edited_at] *)
Definition edited_at (m : ChatMessage) : pyval := msg_updated_at m.

(** [ChatMessage.update(content)]: [answer] is what awaiting
    [update_message(channel_id, id, content)] ends with, [now] what the
    clock gives; the message is given back with the result since the
    method changes it in place. *)
Definition update (ISO8601 : pyval -> outcome) (now : pyval) (content : pyval)
    (answer : outcome) (m : ChatMessage) : built unit * ChatMessage :=
  match answer with
  | Raises e => (Failed (Error e), m)
  | Returns response =>
      let m1 := set_content content m in
      match get response "updatedAt" with
      | Failed e => (Failed e, m1)
      | Built o =>
          match ISO8601 (attr o) with
          | Raises e => (Failed (Error e), m1)
          | Returns t => (Built tt, set_updated_at (py_or t now) m1)
          end
      end
  end.

Definition sample_author : author_obj :=
  {| a_user := {| u_id := Some (PyStr "u1"); u_name := Some (PyStr "Ann");
                  u_subdomain := None; u_email := None |};
     a_bot := PyBool false |}.

Definition sample_payload : pyval :=
  PyDict [("channelType", PyStr "Team");
          ("message",
           PyDict [("id", PyStr "m1"); ("channelId", PyStr "c1");
                   ("createdByWebhookId", PyStr "w1");
                   ("createdBy", PyStr "u1")])].

Definition sample_message : ChatMessage :=
  {| msg_id := PyStr "m1"; msg_channel := None; msg_channel_id := PyStr "c1";
     msg_team := PyNone; msg_team_id := PyNone; msg_created_at := PyNone;
     msg_updated_at := PyNone; msg_deleted_at := PyNone;
     msg_webhook_id := PyNone; msg_bot_id := PyNone;
     msg_author := Some sample_author; msg_author_id := PyStr "u1";
     msg_content := PyStr "first" |}.

(** ** Links and mentions of a user (guilded/abc.py) *)

Section Formatting.

(** [str(v)], as an f-string applies it to the value it interpolates. *)
Variable str_of : pyval -> string.

(** [User.vanity_url], [None] when the user has no usable subdomain *)
Definition vanity_url (u : User) : option string :=
  if truthy (attr (u_subdomain u))
  then Some ("https://guilded.gg/" +:+ str_of (attr (u_subdomain u)))
  else None.

(** [User.profile_url] *)
Definition profile_url (u : User) : string :=
  "https://guilded.gg/profile/" +:+ str_of (attr (u_id u)).

(** [User.mention] *)
Definition mention (u : User) : string :=
  "<@" +:+ str_of (attr (u_id u)) +:+ ">".

End Formatting.

(** [str] on the values whose text is fixed by the language. *)
Definition sample_str (v : pyval) : string :=
  match v with
  | PyStr s => s
  | PyNone => "None"
  | PyBool true => "True"
  | PyBool false => "False"
  | _ => "?"
  end.

(** * Properties *)

(** ** Basic facts about the setters, [dispatch] and [close] *)

Lemma dispatch_done (event_name : string) (args : list pyval) (c : Client) :
  (dispatch event_name args c).1 = Done tt.
Proof. unfold dispatch. by destruct (_listeners c !! _). Qed.

Lemma after_dispatch (event_name : string) (args : list pyval) (c : Client)
    (script : list outcome) (k : Client -> run) :
  after (dispatch event_name args c) script k = k (dispatch event_name args c).2.
Proof. unfold dispatch. by destruct (_listeners c !! _). Qed.

Lemma dispatch_listeners (event_name : string) (args : list pyval) (c : Client) :
  _listeners (dispatch event_name args c).2 = _listeners c.
Proof. unfold dispatch. by destruct (_listeners c !! _). Qed.

Lemma dispatch_closed (event_name : string) (args : list pyval) (c : Client) :
  _closed (dispatch event_name args c).2 = _closed c.
Proof. unfold dispatch. by destruct (_listeners c !! _). Qed.

Lemma dispatch_token (event_name : string) (args : list pyval) (c : Client) :
  token (http (dispatch event_name args c).2) = token (http c).
Proof. unfold dispatch. by destruct (_listeners c !! _). Qed.

Lemma dispatch_loop (event_name : string) (args : list pyval) (c : Client) :
  loop (dispatch event_name args c).2 =
  loop c ++ match _listeners c !! ("on_" +:+ event_name) with
            | Some coro => [CoHandler coro args]
            | None => []
            end.
Proof.
  unfold dispatch. destruct (_listeners c !! _); simpl; [done|].
  by rewrite app_nil_r.
Qed.

Lemma close_done (c : Client) : (close c).1 = Done tt.
Proof. unfold close, close_with, close_frame. by destruct (_closed c). Qed.

Lemma close_closed (c : Client) : _closed (close c).2 = true.
Proof.
  unfold close, close_with, close_frame.
  destruct (_closed c) eqn:E; simpl; done.
Qed.

Lemma close_loop (c : Client) : loop (close c).2 = loop c.
Proof. unfold close, close_with, close_frame. by destruct (_closed c). Qed.

Lemma after_close (c : Client) (script : list outcome) (k : Client -> run) :
  after (close c) script k = k (close c).2.
Proof. unfold close, close_with, close_frame. by destruct (_closed c). Qed.

(** ** Unregistered events (C5) *)

(** C5.  Dispatching an event under whose name ([on_] followed by the event
    name) no handler is registered returns without an error and leaves the
    client as it was: no task is created for any handler, and the listener
    registry and the caches are unchanged. *)
Theorem dispatch_unregistered (event_name : string) (args : list pyval)
    (c : Client) :
  _listeners c !! ("on_" +:+ event_name) = None ->
  dispatch event_name args c = (Done tt, c).
Proof. intros H. unfold dispatch. by rewrite H. Qed.

(** ** Closing (C6) *)

(** C6.  [close()] on a client that is already closed returns without an
    error and leaves the client unchanged.  More generally [close()] never
    raises: the attempt to send the close frame fails inside the [try] and
    is swallowed, as is every failure of that attempt that derives from
    [Exception]; the client then ends up closed and not ready. *)
Theorem close_swallows (c : Client) :
  (_closed c = true -> close c = (Done tt, c)) /\
  (close c).1 = Done tt /\
  _closed (close c).2 = true /\
  (forall e, derives_Exception e = true ->
     close_with (Raises e) c =
     (Done tt, if _closed c then c else set_ready false (set_closed true c))).
Proof.
  repeat split.
  - intros H. unfold close, close_with. by rewrite H.
  - apply close_done.
  - apply close_closed.
  - intros e He. unfold close_with. rewrite He. by destruct (_closed c).
Qed.

(** ** Registration (C7, C9) *)

(** Every name under which [dispatch] looks a handler up, [on_] followed
    by an event's name, is one the client does not use itself. *)
Lemma handler_name_is_plain (event_name : string) :
  kind_of_name ("on_" +:+ event_name) = PlainName.
Proof. reflexivity. Qed.




Lemma event_listeners (coro : callable) (c : Client) :
  iscoroutinefunction coro = true ->
  kind_of_name (__name__ coro) = PlainName ->
  _listeners (event coro c).2 = <[__name__ coro := coro]> (_listeners c).
Proof. intros H K. unfold event. by rewrite H, K. Qed.

Lemma event_loop (coro : callable) (c : Client) :
  loop (event coro c).2 = loop c.
Proof.
  unfold event. destruct (iscoroutinefunction coro); [|done].
  by destruct (kind_of_name (__name__ coro)).
Qed.

(** C9.  The registry holds one handler per name: registering a second
    coroutine function under a name that already has one replaces it, the
    other names keep their handlers, and a later dispatch of the event
    creates exactly one task, for the handler registered last. *)
Theorem event_replaces (c : Client) (first second : callable)
    (event_name : string) (args : list pyval) :
  iscoroutinefunction first = true ->
  iscoroutinefunction second = true ->
  __name__ first = "on_" +:+ event_name ->
  __name__ second = "on_" +:+ event_name ->
  let c2 := (event second (event first c).2).2 in
  _listeners c2 !! ("on_" +:+ event_name) = Some second /\
  (forall other, other <> "on_" +:+ event_name ->
     _listeners c2 !! other = _listeners c !! other) /\
  loop (dispatch event_name args c2).2 = loop c ++ [CoHandler second args].
Proof.
  intros H1 H2 N1 N2 c2. subst c2.
  assert (L : _listeners (event second (event first c).2).2 =
              <["on_" +:+ event_name := second]> (_listeners c)).
  { rewrite !event_listeners
      by (done || (rewrite ?N1, ?N2; apply handler_name_is_plain)).
    rewrite N1, N2. by rewrite insert_insert_eq. }
  repeat split.
  - rewrite L. apply lookup_insert_eq.
  - intros other Ho. rewrite L. by rewrite lookup_insert_ne.
  - rewrite dispatch_loop, L, lookup_insert_eq, !event_loop. done.
Qed.

(** ** Construction (C10) *)

Lemma startup_flag_truthy (key : string) (cache_opt : list (string * pyval)) :
  truthy (startup_flag key cache_opt) = true.
Proof.
  unfold startup_flag, py_or.
  by destruct (truthy (match dict_get key cache_opt with
                       | Some v => v | None => PyNone end)) eqn:E.
Qed.

(** C10.  Whatever mapping is passed as [cache_on_startup] (or none), the
    client's setting for [members] and for [channels] is a truthy value,
    and it is [True] whenever the mapping has [False] or nothing for the
    key: the option cannot switch startup caching off. *)
Theorem cache_on_startup_always_on (options : gmap string pyval)
    (cache_opt : list (string * pyval)) (key : string) :
  pop_default "cache_on_startup" (PyDict []) options = PyDict cache_opt ->
  key = "members" \/ key = "channels" ->
  exists c v,
    Client_init options = Done c /\
    cache_on_startup c !! key = Some v /\
    truthy v = true /\
    (dict_get key cache_opt = None \/
     dict_get key cache_opt = Some (PyBool false) -> v = PyBool true).
Proof.
  intros Hopt Hkey. unfold Client_init. rewrite Hopt.
  eexists _, (startup_flag key cache_opt). split; [reflexivity|]. simpl.
  split.
  - destruct Hkey as [-> | ->].
    + rewrite lookup_insert_ne by done. apply lookup_insert_eq.
    + apply lookup_insert_eq.
  - split; [apply startup_flag_truthy|].
    intros [H | H]; unfold startup_flag; by rewrite H.
Qed.

(** ** Cache accessors and fetches (C8) *)

(** C8.  [get_user] and [get_channel] give what the entity cache holds for
    the ID and leave the client, and with it the list of REST calls issued,
    as it was.  [fetch_user] issues exactly one REST call whatever the
    cache holds.  [getch_user] gives the cached user without a call when
    there is one and does what [fetch_user] does otherwise. *)
Theorem accessors_io (server : request -> outcome) (id : string) (c : Client) :
  get_user id c = (_users (http c) !! id, c) /\
  get_channel id c =
    (match _team_channels (http c) !! id with
     | Some ch => Some ch
     | None => _dm_channels (http c) !! id
     end, c) /\
  requests (http (fetch_user server id c).2) =
    requests (http c) ++ [GET ("/users/" +:+ id)] /\
  match _users (http c) !! id with
  | Some u => getch_user server id c = (Done u, c)
  | None =>
      getch_user server id c = fetch_user server id c /\
      requests (http (getch_user server id c).2) =
        requests (http c) ++ [GET ("/users/" +:+ id)]
  end.
Proof.
  assert (F : requests (http (fetch_user server id c).2) =
              requests (http c) ++ [GET ("/users/" +:+ id)]).
  { unfold fetch_user, http_get_user. by destruct (server _). }
  repeat split; try done.
  unfold getch_user, get_user, _get_user.
  destruct (_users (http c) !! id); [done|]. by split.
Qed.

(** ** Handler isolation (C4) *)

(** A handler that ends with an exception deriving from [Exception] has
    [on_error] called exactly once, right after it, whatever [on_error]
    then does. *)
Lemma run_event_on_error_once (c : Client) (coro : callable)
    (event_name : string) (args : list pyval) (e : exn) :
  awaited coro args = Raises e ->
  derives_Exception e = true ->
  (_run_event c coro event_name args).2 =
    [CallHandler coro args; CallOnError event_name args].
Proof.
  intros H He. unfold _run_event. rewrite H.
  destruct e; try discriminate He; simpl;
    by destruct (on_error c event_name args) as [v | []].
Qed.

Lemma run_event_recoverable (c : Client) (coro : callable)
    (event_name : string) (args : list pyval) :
  (forall name a e, on_error c name a = Raises e -> e = CancelledError) ->
  recoverable (awaited coro args) = true ->
  _run_event c coro event_name args =
    (Returns PyNone, calls_of (coro, event_name, args)).
Proof.
  intros Hook Hrec. unfold _run_event, calls_of, fails. simpl.
  destruct (awaited coro args) as [v | e]; [done|].
  destruct e; try discriminate Hrec; simpl; try done;
    (destruct (on_error c event_name args) as [v | e'] eqn:E; [done|];
     apply Hook in E; by subst e').
Qed.

Lemma schedule_all_loop (evs : list occurrence) (c : Client) :
  loop (schedule_all evs c) =
    loop c ++ ((fun ev : occurrence => CoRunEvent ev.1.1 ev.1.2 ev.2) <$> evs).
Proof.
  revert c. induction evs as [| ev evs IH]; intros c; simpl.
  - by rewrite app_nil_r.
  - unfold schedule_all in *. simpl. rewrite IH. simpl.
    by rewrite <- app_assoc.
Qed.

Lemma schedule_all_attrs (evs : list occurrence) (c : Client) :
  attrs (schedule_all evs c) = attrs c.
Proof.
  revert c. induction evs as [| ev evs IH]; intros c; [done|].
  unfold schedule_all in *. simpl. by rewrite IH.
Qed.

Lemma on_error_attrs (c c' : Client) (name : string) (args : list pyval) :
  attrs c' = attrs c -> on_error c' name args = on_error c name args.
Proof. intros H. unfold on_error. by rewrite H. Qed.

(** The calls [_run_event] makes do not depend on what [on_error] does. *)
Lemma run_event_calls (c : Client) (coro : callable) (event_name : string)
    (args : list pyval) :
  (_run_event c coro event_name args).2 = calls_of (coro, event_name, args).
Proof.
  unfold _run_event, calls_of, fails. simpl.
  destruct (awaited coro args) as [v | e]; [done|].
  destruct e; simpl; try done;
    by destruct (on_error c event_name args) as [v | []].
Qed.

Lemma run_event_attrs (c c' : Client) (coro : callable) (event_name : string)
    (args : list pyval) :
  attrs c' = attrs c ->
  _run_event c' coro event_name args = _run_event c coro event_name args.
Proof.
  intros H. unfold _run_event.
  by rewrite (on_error_attrs c c' event_name args H).
Qed.

(** A task that ends with an exception does not keep the loop from running
    the tasks after it, unless the exception is one the loop raises
    again. *)
Lemma run_tasks_all (c : Client) (evs : list occurrence) :
  Forall (fun ev : occurrence =>
            loop_fatal (_run_event c ev.1.1 ev.1.2 ev.2).1 = false) evs ->
  run_tasks c ((fun ev : occurrence => CoRunEvent ev.1.1 ev.1.2 ev.2) <$> evs) =
    ((fun ev : occurrence => (_run_event c ev.1.1 ev.1.2 ev.2).1) <$> evs,
     concat (calls_of <$> evs), None).
Proof.
  induction 1 as [| [[coro name] args] evs Hev _ IH]; [done|].
  rewrite !fmap_cons. cbn [run_tasks run_coroutine fst snd concat] in *.
  pose proof (run_event_calls c coro name args) as Hcalls.
  destruct (_run_event c coro name args) as [r calls]. simpl in Hev, Hcalls.
  subst calls. rewrite IH.
  destruct r as [v | e]; [done|]. by destruct e.
Qed.

Lemma on_error_calls_of (evs : list occurrence) :
  on_error_calls (concat (calls_of <$> evs)) =
    length (List.filter (fun ev : occurrence => fails (awaited ev.1.1 ev.2)) evs).
Proof.
  unfold on_error_calls.
  induction evs as [| ev evs IH]; [done|].
  rewrite fmap_cons, concat_cons. unfold calls_of at 1.
  cbn [List.filter app is_on_error_call].
  destruct (fails (awaited ev.1.1 ev.2));
    cbn [List.filter app is_on_error_call length]; by rewrite IH.
Qed.

(** C4, as the code has it.  For every handler run through [_run_event]:
    when it ends with an exception deriving from [Exception], [on_error]
    is called exactly once, whatever [on_error] then does, and the
    handler's exception does not leave [_run_event], which returns unless
    [on_error] itself raises something other than a cancellation; when the
    handler is cancelled, that is swallowed and [on_error] is not called;
    an exception deriving from [BaseException] only is not caught and
    [on_error] is not called.  For events scheduled with
    [_schedule_event]: as long as no task ends with [KeyboardInterrupt] or
    [SystemExit], which the loop raises again, every handler is invoked,
    in scheduling order, whatever the handlers and the calls of [on_error]
    before it did, and [on_error] is called once per handler that failed.
    With an [on_error] that returns or is cancelled, no exception of a
    handler that returned, was cancelled or failed leaves
    [_run_event]. *)
Theorem run_event_isolation (c : Client) (evs : list occurrence) :
  (forall coro event_name args,
     (_run_event c coro event_name args).2 =
       calls_of (coro, event_name, args) /\
     (forall e,
        awaited coro args = Raises e ->
        derives_Exception e = true ->
        on_error_calls (_run_event c coro event_name args).2 = 1%nat /\
        ((_run_event c coro event_name args).1 = Returns PyNone \/
         exists e',
           e' <> CancelledError /\
           on_error c event_name args = Raises e' /\
           (_run_event c coro event_name args).1 = Raises e')) /\
     (awaited coro args = Raises CancelledError ->
      _run_event c coro event_name args =
        (Returns PyNone, [CallHandler coro args])) /\
     (forall e,
        awaited coro args = Raises e ->
        derives_Exception e = false ->
        e <> CancelledError ->
        _run_event c coro event_name args =
          (Raises e, [CallHandler coro args]))) /\
  (loop c = [] ->
   Forall (fun ev : occurrence =>
             loop_fatal (_run_event c ev.1.1 ev.1.2 ev.2).1 = false) evs ->
   let c' := schedule_all evs c in
   run_tasks c' (loop c') =
     ((fun ev : occurrence => (_run_event c ev.1.1 ev.1.2 ev.2).1) <$> evs,
      concat (calls_of <$> evs), None) /\
   on_error_calls (concat (calls_of <$> evs)) =
     length (List.filter
               (fun ev : occurrence => fails (awaited ev.1.1 ev.2)) evs)) /\
  ((forall name a e, on_error c name a = Raises e -> e = CancelledError) ->
   forall coro event_name args,
     recoverable (awaited coro args) = true ->
     _run_event c coro event_name args =
       (Returns PyNone, calls_of (coro, event_name, args))).
Proof.
  split; [|split].
  - intros coro event_name args. split; [apply run_event_calls|].
    split; [|split].
    + intros e He Hd. split.
      { by rewrite (run_event_on_error_once c coro event_name args e). }
      unfold _run_event. rewrite He.
      destruct (on_error c event_name args) as [v | e'] eqn:Hook.
      { left. by destruct e. }
      destruct (decide (e' = CancelledError)) as [-> | Hne].
      { left. by destruct e. }
      right. exists e'. split; [done|]. split; [done|].
      destruct e; try discriminate Hd; by destruct e'.
    + intros He. unfold _run_event. by rewrite He.
    + intros e He Hd Hne. unfold _run_event. rewrite He.
      by destruct e.
  - intros Hloop Hevs c'. split; [|apply on_error_calls_of].
    subst c'. rewrite schedule_all_loop, Hloop. cbn [app].
    rewrite <- (run_tasks_all c evs Hevs).
    assert (Hattrs : attrs (schedule_all evs c) = attrs c)
      by apply schedule_all_attrs.
    generalize ((fun ev : occurrence => CoRunEvent ev.1.1 ev.1.2 ev.2) <$> evs).
    intros tasks. induction tasks as [| co tasks IH]; [done|].
    cbn [run_tasks]. rewrite IH.
    assert (Hco : run_coroutine (schedule_all evs c) co = run_coroutine c co).
    { destruct co; [done|]. by apply run_event_attrs. }
    by rewrite Hco.
  - intros Hook coro event_name args. by apply run_event_recoverable.
Qed.

(** C4 as stated fails.  A handler that is cancelled is swallowed without
    [on_error] being called, and a handler that raises [SystemExit] is not
    caught at all: the exception leaves [_run_event], again with no call of
    [on_error]. *)
Lemma run_event_not_all_caught :
  awaited (raising_handler "on_message" CancelledError) [] =
    Raises CancelledError /\
  _run_event sample_client (raising_handler "on_message" CancelledError)
      "on_message" [] =
    (Returns PyNone,
     [CallHandler (raising_handler "on_message" CancelledError) []]) /\
  on_error_calls
    (_run_event sample_client (raising_handler "on_message" CancelledError)
       "on_message" []).2 <> 1%nat /\
  awaited (raising_handler "on_message" SystemExit) [] = Raises SystemExit /\
  (_run_event sample_client (raising_handler "on_message" SystemExit)
     "on_message" []).1 = Raises SystemExit /\
  on_error_calls
    (_run_event sample_client (raising_handler "on_message" SystemExit)
       "on_message" []).2 <> 1%nat.
Proof. repeat split; try reflexivity; vm_compute; discriminate. Qed.

(** ** The listening loop *)

Lemma listen_loop_ok (reconnect v : pyval) (s : list outcome) (i : nat)
    (b : Z) (c : Client) :
  listen_loop reconnect (Returns v :: s) (PyGWS i) b c =
    emit [APoll (PyGWS i)] (listen_loop reconnect s (PyGWS i) 5 c).
Proof. reflexivity. Qed.

Lemma listen_loop_no_reconnect (reconnect : pyval) (s : list outcome) (i : nat)
    (b : Z) (c : Client) :
  is_False reconnect = true ->
  listen_loop reconnect (Raises WebSocketClosure :: s) (PyGWS i) b c =
    emit [APoll (PyGWS i); ALog LogClosed; AClose]
      (stop (Done tt) s (close c).2).
Proof.
  intros H. cbn [listen_loop is_None is_GuildedWebSocket negb].
  rewrite decide_True by done. rewrite H. by rewrite after_close.
Qed.

Lemma listen_loop_reconnect (reconnect : pyval) (s : list outcome) (i : nat)
    (b : Z) (c : Client) :
  is_False reconnect = false ->
  listen_loop reconnect (Raises WebSocketClosure :: s) (PyGWS i) b c =
    emit [APoll (PyGWS i); ALog (LogReconnecting b); ADispatch "disconnect" []]
      (emit [ASleep b; ABuild]
         match s with
         | [] => stop Suspended [] (dispatch "disconnect" [] c).2
         | Returns ws' :: s' =>
             listen_loop reconnect s' ws' b (dispatch "disconnect" [] c).2
         | Raises e' :: s' =>
             if decide (e' = TimeoutError) then
               emit [ALog LogTimedOut]
                 (listen_loop reconnect s' (PyGWS i) (b + 5)
                    (dispatch "disconnect" [] c).2)
             else stop (Raised e') s' (dispatch "disconnect" [] c).2
         end).
Proof.
  intros H. cbn [listen_loop is_None is_GuildedWebSocket negb].
  rewrite decide_True by done. rewrite H. rewrite after_dispatch.
  by destruct s as [| [] ?].
Qed.

Lemma listen_loop_other (reconnect : pyval) (e : exn) (s : list outcome)
    (i : nat) (b : Z) (c : Client) :
  e <> WebSocketClosure ->
  listen_loop reconnect (Raises e :: s) (PyGWS i) b c =
    emit [APoll (PyGWS i)] (stop (Raised e) s c).
Proof.
  intros H. cbn [listen_loop is_None is_GuildedWebSocket negb].
  by rewrite decide_False by done.
Qed.


Lemma emit_emit (a b : list action) (r : run) :
  emit a (emit b r) = emit (a ++ b) r.
Proof. unfold emit. simpl. by rewrite app_assoc. Qed.

Lemma emit_nil (r : run) : emit [] r = r.
Proof. by destruct r. Qed.

Lemma sleeps_emit (acts : list action) (r : run) :
  sleeps (events (emit acts r)) = sleeps acts ++ sleeps (events r).
Proof. unfold sleeps. simpl. apply omap_app. Qed.

Lemma kinds_emit (acts : list action) (r : run) :
  kinds (events (emit acts r)) = kinds acts ++ kinds (events r).
Proof. unfold kinds. simpl. apply omap_app. Qed.

(** Induction on a script two answers at a time: the loop reads one answer
    for a poll and, after a closure, a second one for the reconnect. *)
Lemma script_ind (P : list outcome -> Prop) :
  P [] ->
  (forall a s, P s -> (forall b s', s = b :: s' -> P s') -> P (a :: s)) ->
  forall s, P s.
Proof.
  intros Hnil Hcons s.
  cut (P s /\ (forall b s', s = b :: s' -> P s')); [tauto|].
  induction s as [| a s [IH1 IH2]].
  - split; [done|]. intros b s' Hs. discriminate Hs.
  - split; [by apply Hcons|]. intros b s' Hs. by simplify_eq.
Qed.

(** Successful polls leave the loop where it was, with the wait reset. *)
Lemma listen_loop_polls (reconnect : pyval) (vs : list pyval)
    (s : list outcome) (i : nat) (b : Z) (c : Client) :
  listen_loop reconnect ((Returns <$> vs) ++ s) (PyGWS i) b c =
    emit (replicate (length vs) (APoll (PyGWS i)))
      (listen_loop reconnect s (PyGWS i)
         (match vs with [] => b | _ => 5 end) c).
Proof.
  revert b. induction vs as [| v vs IH]; intros b.
  - cbn [fmap list_fmap app length replicate].
    by destruct (listen_loop reconnect s (PyGWS i) b c).
  - rewrite fmap_cons. simpl app. rewrite listen_loop_ok, IH.
    by destruct vs.
Qed.


Lemma disconnect_tasks_S (k : nat) (c : Client) :
  loop (dispatch "disconnect" [] c).2 ++
    disconnect_tasks k (dispatch "disconnect" [] c).2 =
  loop c ++ disconnect_tasks (S k) c.
Proof.
  unfold disconnect_tasks. rewrite dispatch_listeners, dispatch_loop.
  change ("on_" +:+ "disconnect") with "on_disconnect".
  destruct (_listeners c !! "on_disconnect"); simpl.
  - by rewrite <- app_assoc.
  - by rewrite !app_nil_r.
Qed.

Lemma disconnect_tasks_0 (c : Client) :
  loop c = loop c ++ disconnect_tasks 0 c.
Proof.
  unfold disconnect_tasks.
  destruct (_listeners c !! "on_disconnect"); by rewrite app_nil_r.
Qed.

Lemma listen_loop_cycles (reconnect : pyval) (script : list outcome) :
  is_False reconnect = false ->
  forall ws b c,
  exists k,
    kinds (events (listen_loop reconnect script ws b c)) = reconnect_cycles k /\
    _listeners (final (listen_loop reconnect script ws b c)) = _listeners c /\
    loop (final (listen_loop reconnect script ws b c)) =
      loop c ++ disconnect_tasks k c.
Proof.
  intros Hr. induction script as [| a s IH1 IH2] using script_ind;
    intros ws b c.
  - exists 0%nat. destruct ws; simpl; auto using disconnect_tasks_0.
  - assert (Z0 : forall r, events r = [] \/ events r = [APoll ws] ->
                final r = c ->
                exists k, kinds (events r) = reconnect_cycles k /\
                          _listeners (final r) = _listeners c /\
                          loop (final r) = loop c ++ disconnect_tasks k c).
    { intros r Hev ->. exists 0%nat.
      split; [by destruct Hev as [-> | ->]|].
      split; [done|]. apply disconnect_tasks_0. }
    destruct ws as [| | | | | i |]; try (apply Z0; simpl; by auto).
    destruct a as [v | e].
    + rewrite listen_loop_ok, kinds_emit. simpl.
      destruct (IH1 (PyGWS i) 5 c) as (k & ? & ? & ?). by exists k.
    + destruct (decide (e = WebSocketClosure)) as [-> | Hne].
      2: { rewrite listen_loop_other by done. apply Z0; simpl; by auto. }
      rewrite listen_loop_reconnect by done.
      rewrite !kinds_emit. cbn [final emit].
      set (c1 := (dispatch "disconnect" [] c).2).
      assert (S1 : forall r,
                (exists k, kinds (events r) = reconnect_cycles k /\
                           _listeners (final r) = _listeners c1 /\
                           loop (final r) = loop c1 ++ disconnect_tasks k c1) ->
                exists k,
                  kinds [APoll (PyGWS i); ALog (LogReconnecting b);
                         ADispatch "disconnect" []] ++
                  kinds [ASleep b; ABuild] ++ kinds (events r) =
                    reconnect_cycles k /\
                  _listeners (final r) = _listeners c /\
                  loop (final r) = loop c ++ disconnect_tasks k c).
      { intros r (k & Hk & Hl & Ht). exists (S k). rewrite Hk, Hl, Ht.
        split; [done|]. split; [apply dispatch_listeners|].
        apply disconnect_tasks_S. }
      destruct s as [| [ws' | e'] s'].
      * apply S1. exists 0%nat. simpl. auto using disconnect_tasks_0.
      * apply S1. by eapply IH2.
      * destruct (decide (e' = TimeoutError)) as [-> | Hne'].
        -- apply S1. destruct (IH2 _ _ eq_refl (PyGWS i) (b + 5) c1)
             as (k & ? & ? & ?).
           exists k. by rewrite kinds_emit.
        -- apply S1. exists 0%nat. simpl. auto using disconnect_tasks_0.
Qed.

(** What a run of the loop can end with: it leaves a suffix of the script,
    never runs out of fuel (it has none to run out of), and raises only
    what an awaited collaborator raised, or [AttributeError] when what the
    reconnect gave back has no [poll_event]. *)
Lemma listen_loop_sound (reconnect : pyval) (script : list outcome) :
  forall ws b c,
    rest (listen_loop reconnect script ws b c) `suffix_of` script /\
    result (listen_loop reconnect script ws b c) <> OutOfFuel /\
    (forall e, result (listen_loop reconnect script ws b c) = Raised e ->
       e = AttributeError \/ Raises e ∈ script).
Proof.
  induction script as [| a s IH1 IH2] using script_ind; intros ws b c.
  - destruct ws; simpl; (split; [done|]); (split; [done|]);
      intros e [= <-]; by left.
  - destruct ws as [| | | | | i |];
      try (simpl; (split; [done|]); (split; [done|]);
           intros e [= <-]; by left).
    destruct a as [v | e0].
    + rewrite listen_loop_ok. simpl.
      destruct (IH1 (PyGWS i) 5 c) as (Hs & Hf & He).
      split; [by apply suffix_cons_r|]. split; [done|].
      intros e H. destruct (He e H); [by left|right]. by apply elem_of_cons; right.
    + destruct (decide (e0 = WebSocketClosure)) as [-> | Hne].
      2: { rewrite listen_loop_other by done. simpl.
           split; [by apply suffix_cons_r|]. split; [done|].
           intros e [= <-]. right. apply elem_of_cons. by left. }
      destruct (is_False reconnect) eqn:Hr.
      { rewrite listen_loop_no_reconnect by done. simpl.
        split; [by apply suffix_cons_r|]. by split. }
      rewrite listen_loop_reconnect by done. simpl.
      destruct s as [| [ws' | e'] s']; simpl.
      * split; [apply suffix_nil|]. by split.
      * destruct (IH2 _ _ eq_refl ws' b (dispatch "disconnect" [] c).2)
          as (Hs & Hf & He).
        split; [by do 2 apply suffix_cons_r|]. split; [done|].
        intros e H. destruct (He e H); [by left|right].
        apply elem_of_cons; right. by apply elem_of_cons; right.
      * destruct (decide (e' = TimeoutError)) as [-> | Hne']; simpl.
        -- destruct (IH2 _ _ eq_refl (PyGWS i) (b + 5)
                       (dispatch "disconnect" [] c).2) as (Hs & Hf & He).
           split; [by do 2 apply suffix_cons_r|]. split; [done|].
           intros e H. destruct (He e H); [by left|right].
           apply elem_of_cons; right. by apply elem_of_cons; right.
        -- split; [by do 2 apply suffix_cons_r|]. split; [done|].
           intros e [= <-]. right. apply elem_of_cons; right.
           apply elem_of_cons. by left.
Qed.



(** ** The connection loop *)

Lemma dispatch_ws (event_name : string) (args : list pyval) (c : Client) :
  ws (dispatch event_name args c).2 = ws c.
Proof. unfold dispatch. by destruct (_listeners c !! _). Qed.

Lemma connect_loop_connected (fuel : nat) (reconnect : pyval) (i : nat)
    (s : list outcome) (c : Client) :
  _closed c = false ->
  connect_loop (S fuel) reconnect (Returns (PyGWS i) :: s) c =
    let c2 := set_http (set_http_ws (PyGWS i) (http c)) (set_ws (PyGWS i) c) in
    let c5 :=
      (dispatch "ready" [] (set_ready true (dispatch "connect" [] c2).2)).2 in
    let r := listen_socks reconnect s (PyGWS i) c5 in
    emit [ABuild; ADispatch "connect" []; ADispatch "ready" []]
      match result r with
      | Done _ => emit (events r) (connect_loop fuel reconnect (rest r) (final r))
      | _ => r
      end.
Proof.
  intros H. cbn [connect_loop]. rewrite H.
  cbn [is_GuildedWebSocket negb]. rewrite !after_dispatch.
  rewrite dispatch_ws. cbn [ws set_ready]. rewrite dispatch_ws.
  reflexivity.
Qed.

(** One more iteration than the script has answers is never used up, and
    [connect] raises only what an awaited collaborator raised (or
    [AttributeError], as the listening loop). *)
Lemma connect_loop_sound (reconnect : pyval) (fuel : nat) :
  forall script c,
    (length script < fuel)%nat ->
    result (connect_loop fuel reconnect script c) <> OutOfFuel /\
    (forall e, result (connect_loop fuel reconnect script c) = Raised e ->
       e = AttributeError \/ Raises e ∈ script).
Proof.
  induction fuel as [| fuel IH]; intros script c Hlen.
  { exfalso. revert Hlen. apply Nat.nlt_0_r. }
  destruct (_closed c) eqn:Hc.
  { simpl. rewrite Hc. by split. }
  destruct script as [| [gws | e0] s].
  - simpl. rewrite Hc. by split.
  - destruct (is_GuildedWebSocket gws) eqn:Hg.
    + destruct gws; try discriminate Hg.
      rewrite connect_loop_connected by done. cbn zeta. unfold listen_socks.
      destruct (listen_loop_sound reconnect s (PyGWS sock) 5
                  (dispatch "ready" []
                     (set_ready true
                        (dispatch "connect" []
                           (set_http (set_http_ws (PyGWS sock) (http c))
                              (set_ws (PyGWS sock) c))).2)).2)
        as (Hs & Hf & He).
      set (r := listen_loop _ _ _ _ _) in *.
      destruct (result r) as [[] | e1 | |] eqn:Hres; simpl; rewrite ?Hres.
      * destruct (IH (rest r) (final r)) as (Hf' & He').
        { apply suffix_length in Hs. simpl in Hlen. lia. }
        split; [done|]. intros e H. destruct (He' e H) as [-> | Hin]; [by left|].
        right. apply elem_of_cons; right.
        clearbody r. destruct Hs as [pre ->]. apply elem_of_app. by right.
      * split; [done|]. intros e [= <-]. destruct (He e1 eq_refl); [by left|].
        right. by apply elem_of_cons; right.
      * by split.
      * done.
    + simpl. rewrite Hc, Hg. simpl. rewrite after_dispatch. simpl. by split.
  - simpl. rewrite Hc. simpl. split; [done|].
    intros e [= <-]. right. apply elem_of_cons. by left.
Qed.

Lemma connect_total (token_arg reconnect : pyval) (script : list outcome)
    (c : Client) :
  result (connect token_arg reconnect script c) <> OutOfFuel.
Proof.
  unfold connect. destruct (negb _); [done|].
  apply connect_loop_sound. lia.
Qed.

Lemma kinds_polls (n : nat) (w : pyval) : kinds (replicate n (APoll w)) = [].
Proof. by induction n. Qed.

Lemma sleeps_polls (n : nat) (w : pyval) : sleeps (replicate n (APoll w)) = [].
Proof. by induction n. Qed.

(** Without reconnecting, the first closure ends the listening loop: the
    client is closed and nothing else is done. *)
Lemma listen_loop_closes (reconnect : pyval) (vs : list pyval)
    (s : list outcome) (i : nat) (b : Z) (c : Client) :
  is_False reconnect = true ->
  result (listen_loop reconnect ((Returns <$> vs) ++ Raises WebSocketClosure :: s)
            (PyGWS i) b c) = Done tt /\
  rest (listen_loop reconnect ((Returns <$> vs) ++ Raises WebSocketClosure :: s)
          (PyGWS i) b c) = s /\
  final (listen_loop reconnect ((Returns <$> vs) ++ Raises WebSocketClosure :: s)
           (PyGWS i) b c) = (close c).2 /\
  kinds (events (listen_loop reconnect
                   ((Returns <$> vs) ++ Raises WebSocketClosure :: s)
                   (PyGWS i) b c)) = [KClosure].
Proof.
  intros Hr. rewrite listen_loop_polls, listen_loop_no_reconnect by done.
  repeat split. rewrite kinds_emit, kinds_polls. done.
Qed.

(** Every closure the collaborators deliver is answered by one cycle: on
    a script with one closure per element of [cls] the loop goes through
    as many cycles as [cls] has elements, creates that many tasks for the
    [on_disconnect] handler and is then waiting for its next poll. *)
Lemma listen_loop_closures (reconnect : pyval) (cls : list closure) :
  is_False reconnect = false ->
  forall i b c,
    result (listen_loop reconnect (closures_script cls) (PyGWS i) b c) =
      Suspended /\
    kinds (events (listen_loop reconnect (closures_script cls) (PyGWS i) b c)) =
      reconnect_cycles (length cls) /\
    _listeners (final (listen_loop reconnect (closures_script cls)
                         (PyGWS i) b c)) = _listeners c /\
    loop (final (listen_loop reconnect (closures_script cls) (PyGWS i) b c)) =
      loop c ++ disconnect_tasks (length cls) c.
Proof.
  intros Hr. induction cls as [| [vs answer] cls IH]; intros i b c.
  { repeat split. simpl. apply disconnect_tasks_0. }
  change (closures_script ((vs, answer) :: cls))
    with (closure_script (vs, answer) ++ closures_script cls).
  unfold closure_script. cbn [fst snd]. rewrite <- app_assoc. cbn [app].
  rewrite listen_loop_polls, listen_loop_reconnect by done.
  set (b' := match vs with [] => b | _ => 5 end).
  set (c1 := (dispatch "disconnect" [] c).2).
  assert (Hgo : forall r,
            result r = Suspended /\
            kinds (events r) = reconnect_cycles (length cls) /\
            _listeners (final r) = _listeners c1 /\
            loop (final r) = loop c1 ++ disconnect_tasks (length cls) c1 ->
            forall pre,
              kinds pre = [] ->
              result (emit (replicate (length vs) (APoll (PyGWS i)))
                        (emit [APoll (PyGWS i); ALog (LogReconnecting b');
                               ADispatch "disconnect" []]
                           (emit [ASleep b'; ABuild] (emit pre r)))) =
                Suspended /\
              kinds (events
                       (emit (replicate (length vs) (APoll (PyGWS i)))
                          (emit [APoll (PyGWS i); ALog (LogReconnecting b');
                                 ADispatch "disconnect" []]
                             (emit [ASleep b'; ABuild] (emit pre r))))) =
                reconnect_cycles (length ((vs, answer) :: cls)) /\
              _listeners
                (final
                   (emit (replicate (length vs) (APoll (PyGWS i)))
                      (emit [APoll (PyGWS i); ALog (LogReconnecting b');
                             ADispatch "disconnect" []]
                         (emit [ASleep b'; ABuild] (emit pre r))))) =
                _listeners c /\
              loop
                (final
                   (emit (replicate (length vs) (APoll (PyGWS i)))
                      (emit [APoll (PyGWS i); ALog (LogReconnecting b');
                             ADispatch "disconnect" []]
                         (emit [ASleep b'; ABuild] (emit pre r))))) =
                loop c ++ disconnect_tasks (length ((vs, answer) :: cls)) c).
  { intros r (Hres & Hk & Hl & Ht) pre Hpre.
    split; [done|]. split.
    { rewrite !kinds_emit, kinds_polls, Hpre, Hk. reflexivity. }
    cbn [final emit]. rewrite Hl, Ht. split; [apply dispatch_listeners|].
    apply disconnect_tasks_S. }
  destruct answer as [sock |].
  - apply (Hgo _ (IH sock b' c1) []). reflexivity.
  - rewrite decide_True by done.
    apply (Hgo _ (IH i (b' + 5) c1) [ALog LogTimedOut]). reflexivity.
Qed.

(** The same with anything after the closures: the loop goes through one
    cycle per closure and then does on the remaining answers what it does
    from the websocket, the wait and the client it has arrived at, whose
    listeners are the same and whose tasks are one more per closure. *)
Lemma listen_loop_closures_then (reconnect : pyval) (cls : list closure)
    (s : list outcome) :
  is_False reconnect = false ->
  forall i b c,
  exists pre i' b' c',
    listen_loop reconnect (closures_script cls ++ s) (PyGWS i) b c =
      emit pre (listen_loop reconnect s (PyGWS i') b' c') /\
    kinds pre = reconnect_cycles (length cls) /\
    _listeners c' = _listeners c /\
    loop c' = loop c ++ disconnect_tasks (length cls) c.
Proof.
  intros Hr. induction cls as [| [vs answer] cls IH]; intros i b c.
  { exists [], i, b, c. rewrite emit_nil. repeat split.
    apply disconnect_tasks_0. }
  change (closures_script ((vs, answer) :: cls))
    with (closure_script (vs, answer) ++ closures_script cls).
  unfold closure_script. cbn [fst snd]. rewrite <- !app_assoc. cbn [app].
  rewrite listen_loop_polls, listen_loop_reconnect by done.
  set (b0 := match vs with [] => b | _ => 5 end).
  set (c1 := (dispatch "disconnect" [] c).2).
  assert (Hgo : forall mid i1 b1,
            kinds mid = [] ->
            exists pre i' b' c',
              emit (replicate (length vs) (APoll (PyGWS i)))
                (emit [APoll (PyGWS i); ALog (LogReconnecting b0);
                       ADispatch "disconnect" []]
                   (emit [ASleep b0; ABuild]
                      (emit mid
                         (listen_loop reconnect (closures_script cls ++ s)
                            (PyGWS i1) b1 c1)))) =
                emit pre (listen_loop reconnect s (PyGWS i') b' c') /\
              kinds pre = reconnect_cycles (length ((vs, answer) :: cls)) /\
              _listeners c' = _listeners c /\
              loop c' = loop c ++ disconnect_tasks (length ((vs, answer) :: cls)) c).
  { intros mid i1 b1 Hmid.
    destruct (IH i1 b1 c1) as (pre & i' & b' & c' & Heq & Hk & Hl & Ht).
    exists (replicate (length vs) (APoll (PyGWS i)) ++
            [APoll (PyGWS i); ALog (LogReconnecting b0);
             ADispatch "disconnect" []] ++ [ASleep b0; ABuild] ++ mid ++ pre),
      i', b', c'.
    rewrite Heq, !emit_emit, <- !app_assoc. split; [done|]. split.
    { unfold kinds in *. rewrite !omap_app.
      fold (kinds (replicate (length vs) (APoll (PyGWS i)))).
      rewrite kinds_polls, Hmid, Hk. reflexivity. }
    rewrite Hl, Ht. split; [apply dispatch_listeners|].
    apply disconnect_tasks_S. }
  destruct answer as [sock |].
  - destruct (Hgo [] sock b0 eq_refl) as (pre & i' & b' & c' & Heq & H).
    exists pre, i', b', c'. split; [|done]. rewrite <- Heq.
    by rewrite (emit_nil (listen_loop _ _ _ _ _)).
  - rewrite decide_True by done.
    destruct (Hgo [ALog LogTimedOut] i (b0 + 5) eq_refl)
      as (pre & i' & b' & c' & Heq & H).
    exists pre, i', b', c'. by split.
Qed.

(** ** Backoff (C1) *)



(** ** Closures (C2) *)

(** C2.  With [reconnect=True], every closure the websocket delivers is
    followed by exactly one [disconnect] notification, then the wait, then
    the reconnect attempt, before anything else, and each notification
    creates one task for the registered [on_disconnect] handler: a run
    through as many closures as [cls] has elements shows that many such
    cycles and tasks, whatever comes after them, and no run of the
    listening loop shows anything but whole cycles.  With
    [reconnect=False] the first closure is followed by no notification, no
    wait and no reconnect attempt: the client is closed, no task is
    created, the listening loop returns, and so does [connect], after the
    one connection attempt it started with. *)
Theorem closure_handling (script : list outcome) (vs : list pyval)
    (s : list outcome) (i : nat) (b : Z) (c : Client) (cls : list closure) :
  (result (listen_loop (PyBool true) (closures_script cls) (PyGWS i) b c) =
     Suspended /\
   kinds (events (listen_loop (PyBool true) (closures_script cls)
                    (PyGWS i) b c)) = reconnect_cycles (length cls) /\
   loop (final (listen_loop (PyBool true) (closures_script cls) (PyGWS i) b c)) =
     loop c ++ disconnect_tasks (length cls) c) /\
  (exists pre i' b' c',
     listen_loop (PyBool true) (closures_script cls ++ script) (PyGWS i) b c =
       emit pre (listen_loop (PyBool true) script (PyGWS i') b' c') /\
     kinds pre = reconnect_cycles (length cls) /\
     loop c' = loop c ++ disconnect_tasks (length cls) c) /\
  (exists k,
     kinds (events (listen_loop (PyBool true) script (PyGWS i) b c)) =
       reconnect_cycles k /\
     loop (final (listen_loop (PyBool true) script (PyGWS i) b c)) =
       loop c ++ disconnect_tasks k c) /\
  (let r := listen_loop (PyBool false)
              ((Returns <$> vs) ++ Raises WebSocketClosure :: s) (PyGWS i) b c in
   result r = Done tt /\ rest r = s /\ kinds (events r) = [KClosure] /\
   _closed (final r) = true /\ loop (final r) = loop c) /\
  (forall token_arg,
     truthy (py_or token_arg (token (http c))) = true ->
     _closed c = false ->
     let r := connect token_arg (PyBool false)
                (Returns (PyGWS i) ::
                 (Returns <$> vs) ++ Raises WebSocketClosure :: s) c in
     result r = Done tt /\ rest r = s /\
     kinds (events r) = [KBuild; KClosure] /\ _closed (final r) = true).
Proof.
  split; [|split; [|split; [|split]]].
  - destruct (listen_loop_closures (PyBool true) cls eq_refl i b c)
      as (Hres & Hk & _ & Hl).
    done.
  - destruct (listen_loop_closures_then (PyBool true) cls script eq_refl i b c)
      as (pre & i' & b' & c' & Heq & Hk & _ & Hl).
    by exists pre, i', b', c'.
  - destruct (listen_loop_cycles (PyBool true) script eq_refl (PyGWS i) b c)
      as (k & Hk & _ & Hl).
    by exists k.
  - destruct (listen_loop_closes (PyBool false) vs s i b c eq_refl)
      as (Hres & Hrest & Hfin & Hk).
    cbn zeta. rewrite Hres, Hrest, Hfin, Hk.
    repeat split; [apply close_closed | apply close_loop].
  - intros token_arg Htok Hc. cbn zeta.
    unfold connect. cbn [http set_http token set_token]. rewrite Htok.
    cbn [negb]. rewrite connect_loop_connected by done. cbn zeta.
    unfold listen_socks.
    set (c5 := (dispatch "ready" [] _).2).
    destruct (listen_loop_closes (PyBool false) vs s i 5 c5 eq_refl)
      as (Hres & Hrest & Hfin & Hk).
    rewrite Hres, Hrest, Hfin.
    assert (Hclosed : _closed (close c5).2 = true) by apply close_closed.
    destruct (length _); cbn [connect_loop]; rewrite Hclosed;
      rewrite ?kinds_emit, Hk; by repeat split.
Qed.

Lemma closure_handling_witness :
  kinds (events (listen_loop (PyBool true)
                   [Returns PyNone; Raises WebSocketClosure;
                    Raises TimeoutError; Raises WebSocketClosure;
                    Returns (PyGWS 1)]
                   (PyGWS 0) 5 sample_client)) =
    [KClosure; KDisconnect; KSleep; KBuild;
     KClosure; KDisconnect; KSleep; KBuild] /\
  (exists k,
     kinds (events (listen_loop (PyBool true)
                      [Raises WebSocketClosure; Raises TimeoutError;
                       Raises WebSocketClosure]
                      (PyGWS 0) 5 sample_client)) = reconnect_cycles k) /\
  result (connect (PyStr "token") (PyBool false)
            [Returns (PyGWS 0); Returns PyNone; Raises WebSocketClosure]
            sample_client) = Done tt.
Proof.
  destruct (closure_handling
              [Raises WebSocketClosure; Raises TimeoutError;
               Raises WebSocketClosure]
              [PyNone] [] 0 5 sample_client
              [([PyNone], TimedOut); ([], Reconnected 1)])
    as ((_ & Hcls & _) & _ & (k & Hk & _) & _ & H).
  split; [exact Hcls|]. split; [by exists k|].
  by destruct (H (PyStr "token") eq_refl eq_refl) as (Hres & _).
Defined.

(** ** The token check (C3) *)

(** C3.  [connect] keeps as token the argument or else the one configured
    on the HTTP client.  When neither is a usable (truthy) token, as when
    both are [None], it raises [ClientException] (the class the code
    raises for what the specification calls an authentication error)
    before any connection attempt: no effect has happened and no answer
    has been read.  When one of them is a usable token [connect] itself
    raises no [ClientException]: it can only end with one that an awaited
    collaborator raised. *)
Theorem connect_token_check (token_arg reconnect : pyval)
    (script : list outcome) (c : Client) :
  (truthy (py_or token_arg (token (http c))) = false ->
   result (connect token_arg reconnect script c) = Raised ClientException /\
   events (connect token_arg reconnect script c) = [] /\
   rest (connect token_arg reconnect script c) = script) /\
  (truthy (py_or token_arg (token (http c))) = true ->
   Raises ClientException ∉ script ->
   result (connect token_arg reconnect script c) <> Raised ClientException).
Proof.
  unfold connect. cbn [http set_http token set_token]. split; intros Htok.
  - by rewrite Htok.
  - intros Hnot Hres. rewrite Htok in Hres. cbn [negb] in Hres.
    apply connect_loop_sound in Hres; [|lia].
    by destruct Hres as [? | ?].
Qed.

Lemma connect_token_check_witness :
  result (connect PyNone (PyBool true) [Returns (PyGWS 0)] sample_client) =
    Raised ClientException /\
  result (connect (PyStr "token") (PyBool true) [Returns (PyGWS 0)]
            sample_client) <> Raised ClientException.
Proof.
  destruct (connect_token_check PyNone (PyBool true)
              [Returns (PyGWS 0)] sample_client) as [H1 _].
  destruct (connect_token_check (PyStr "token") (PyBool true)
              [Returns (PyGWS 0)] sample_client) as [_ H2].
  split.
  - by destruct (H1 eq_refl) as [Hres _].
  - apply H2; [reflexivity|]. intros Hin. apply list_elem_of_singleton in Hin.
    discriminate Hin.
Defined.

(** ** Instances *)

Lemma dispatch_unregistered_witness :
  dispatch "typing" [PyInt 1]
    (event (quiet_handler "on_message") sample_client).2 =
  (Done tt, (event (quiet_handler "on_message") sample_client).2).
Proof. apply dispatch_unregistered. vm_compute. reflexivity. Defined.

Lemma close_swallows_witness :
  close (set_closed true sample_client) =
    (Done tt, set_closed true sample_client) /\
  close_with (Raises RuntimeError) (set_closed true sample_client) =
    (Done tt, set_closed true sample_client).
Proof.
  destruct (close_swallows (set_closed true sample_client))
    as (H1 & _ & _ & H4).
  split; [apply H1; reflexivity | apply (H4 RuntimeError); reflexivity].
Defined.

Lemma event_replaces_witness :
  loop (dispatch "message" [PyStr "hi"]
          (event (raising_handler "on_message" ValueError)
             (event (quiet_handler "on_message") sample_client).2).2).2 =
    [CoHandler (raising_handler "on_message" ValueError) [PyStr "hi"]].
Proof.
  destruct (event_replaces sample_client (quiet_handler "on_message")
              (raising_handler "on_message" ValueError) "message"
              [PyStr "hi"] eq_refl eq_refl eq_refl eq_refl) as (_ & _ & H).
  exact H.
Defined.

Lemma cache_on_startup_always_on_witness :
  exists c,
    Client_init (<["cache_on_startup" := PyDict [("members", PyBool false)]]> ∅) =
      Done c /\
    cache_on_startup c !! "members" = Some (PyBool true).
Proof.
  destruct (cache_on_startup_always_on
              (<["cache_on_startup" := PyDict [("members", PyBool false)]]> ∅)
              [("members", PyBool false)] "members")
    as (c & v & Hc & Hv & _ & Htrue).
  - vm_compute. reflexivity.
  - left. reflexivity.
  - exists c. split; [exact Hc|]. rewrite Hv. f_equal. apply Htrue.
    right. reflexivity.
Defined.

Lemma run_event_isolation_witness :
  run_tasks
    (schedule_all [(raising_handler "on_message" ValueError, "message", []);
                   (quiet_handler "on_ready", "ready", [])]
       (event (raising_handler "on_error" RuntimeError) sample_client).2)
    (loop
       (schedule_all [(raising_handler "on_message" ValueError, "message", []);
                      (quiet_handler "on_ready", "ready", [])]
          (event (raising_handler "on_error" RuntimeError) sample_client).2)) =
  ([Raises RuntimeError; Returns PyNone],
   [CallHandler (raising_handler "on_message" ValueError) [];
    CallOnError "message" [];
    CallHandler (quiet_handler "on_ready") []],
   None) /\
  _run_event sample_client (raising_handler "on_message" KeyboardInterrupt)
    "message" [] =
  (Raises KeyboardInterrupt,
   [CallHandler (raising_handler "on_message" KeyboardInterrupt) []]) /\
  _run_event sample_client (raising_handler "on_message" ValueError)
    "message" [] =
  (Returns PyNone,
   [CallHandler (raising_handler "on_message" ValueError) [];
    CallOnError "message" []]).
Proof.
  destruct (run_event_isolation
              (event (raising_handler "on_error" RuntimeError) sample_client).2
              [(raising_handler "on_message" ValueError, "message", []);
               (quiet_handler "on_ready", "ready", [])]) as (_ & Hall & _).
  destruct (run_event_isolation sample_client []) as (Hone & _ & Hquiet).
  split; [|split].
  - destruct Hall as [H _]; [reflexivity | repeat constructor |].
    rewrite H. reflexivity.
  - destruct (Hone (raising_handler "on_message" KeyboardInterrupt)
                "message" []) as (_ & _ & _ & H).
    apply (H KeyboardInterrupt); [reflexivity | reflexivity | discriminate].
  - apply Hquiet; [|reflexivity].
    intros name a e. unfold on_error. simpl. rewrite lookup_empty.
    discriminate.
Defined.

(** * Further properties of the client *)

(** ** What [dispatch] and [close] leave alone *)

Lemma dispatch_ready (event_name : string) (args : list pyval) (c : Client) :
  _ready (dispatch event_name args c).2 = _ready c.
Proof. unfold dispatch. by destruct (_listeners c !! _). Qed.

Lemma dispatch_http (event_name : string) (args : list pyval) (c : Client) :
  http (dispatch event_name args c).2 = http c.
Proof. unfold dispatch. by destruct (_listeners c !! _). Qed.

Lemma close_http (c : Client) : http (close c).2 = http c.
Proof. unfold close, close_with, close_frame. by destruct (_closed c). Qed.

Lemma connect_loop_returns (reconnect : pyval) (fuel : nat) :
  forall script c,
    result (connect_loop fuel reconnect script c) = Done tt ->
    closed (final (connect_loop fuel reconnect script c)) = true \/
    exists gws,
      is_GuildedWebSocket gws = false /\
      ADispatch "error" [gws] ∈ events (connect_loop fuel reconnect script c).
Proof.
  induction fuel as [| fuel IH]; intros script c.
  { simpl. destruct (_closed c) eqn:Hcl; [by left | done]. }
  destruct (_closed c) eqn:Hcl.
  { simpl. rewrite Hcl. by left. }
  destruct script as [| [gws | e0] s].
  - simpl. by rewrite Hcl.
  - destruct (is_GuildedWebSocket gws) eqn:Hg.
    + destruct gws; try discriminate Hg.
      rewrite connect_loop_connected by done. cbn zeta. unfold listen_socks.
      set (r := listen_loop _ _ _ _ _).
      destruct (result r) as [[] | e1 | |] eqn:Hres; simpl; rewrite ?Hres;
        try done.
      intros H. destruct (IH _ _ H) as [Hc | (gws & Hg' & Hin)]; [by left|].
      right. exists gws. split; [done|].
      do 3 (apply elem_of_cons; right). apply elem_of_app. by right.
    + simpl. rewrite Hcl, Hg. simpl. rewrite after_dispatch. simpl.
      intros _. right. exists gws. split; [done|].
      apply elem_of_cons; right. apply elem_of_cons. by left.
  - simpl. by rewrite Hcl.
Qed.

(** X3.  [connect] returns to its caller, rather than raising or staying
    suspended, only with the client closed, or after the gateway handed
    back something that is not a websocket, which it has then passed to
    the [error] event. *)
Theorem connect_returns_only_when_closed (token_arg reconnect : pyval)
    (script : list outcome) (c : Client) :
  result (connect token_arg reconnect script c) = Done tt ->
  closed (final (connect token_arg reconnect script c)) = true \/
  exists gws,
    is_GuildedWebSocket gws = false /\
    ADispatch "error" [gws] ∈ events (connect token_arg reconnect script c).
Proof.
  unfold connect. destruct (negb _); [done|]. apply connect_loop_returns.
Qed.

Lemma connect_returns_only_when_closed_witness :
  closed
    (final (connect (PyStr "token") (PyBool false)
              [Returns (PyGWS 0); Raises WebSocketClosure] sample_client)) =
    true \/
  exists gws,
    is_GuildedWebSocket gws = false /\
    ADispatch "error" [gws] ∈
      events (connect (PyStr "token") (PyBool false)
                [Returns (PyGWS 0); Raises WebSocketClosure] sample_client).
Proof.
  apply (connect_returns_only_when_closed (PyStr "token") (PyBool false)
           [Returns (PyGWS 0); Raises WebSocketClosure] sample_client).
  reflexivity.
Defined.

(** X4.  Once closed, a client does not connect again: [connect] with a usable
    token returns at once, without a connection attempt and without reading
    any answer. *)
Theorem connect_after_close (token_arg reconnect : pyval)
    (script : list outcome) (c : Client) :
  truthy (py_or token_arg (token (http c))) = true ->
  result (connect token_arg reconnect script (close c).2) = Done tt /\
  events (connect token_arg reconnect script (close c).2) = [] /\
  rest (connect token_arg reconnect script (close c).2) = script /\
  closed (final (connect token_arg reconnect script (close c).2)) = true.
Proof.
  intros Htok. unfold connect. cbn [http set_http token set_token].
  rewrite close_http, Htok. cbn [negb].
  assert (Hcl : _closed (set_http
                  (set_token (py_or token_arg (token (http c))) (http c))
                  (close c).2) = true) by apply close_closed.
  cbn [connect_loop]. rewrite Hcl. by repeat split.
Qed.

Lemma connect_after_close_witness :
  events (connect (PyStr "token") (PyBool true) [Returns (PyGWS 0)]
            (close sample_client).2) = [].
Proof.
  by destruct (connect_after_close (PyStr "token") (PyBool true)
                 [Returns (PyGWS 0)] sample_client eq_refl) as (_ & H & _).
Defined.

(** ** How a run of [connect] ends *)

(** The client as [connect] has it when it starts listening on the
    websocket [gws]. *)
Lemma connect_connected (token_arg reconnect : pyval) (i : nat)
    (s : list outcome) (c : Client) :
  truthy (py_or token_arg (token (http c))) = true ->
  _closed c = false ->
  connect token_arg reconnect (Returns (PyGWS i) :: s) c =
    let c0 :=
      set_http (set_token (py_or token_arg (token (http c))) (http c)) c in
    let c2 := set_http (set_http_ws (PyGWS i) (http c0)) (set_ws (PyGWS i) c0) in
    let c5 :=
      (dispatch "ready" [] (set_ready true (dispatch "connect" [] c2).2)).2 in
    let r := listen_loop reconnect s (PyGWS i) 5 c5 in
    emit [ABuild; ADispatch "connect" []; ADispatch "ready" []]
      match result r with
      | Done _ =>
          emit (events r)
            (connect_loop (S (length s)) reconnect (rest r) (final r))
      | _ => r
      end.
Proof.
  intros Htok Hc. unfold connect. cbn [http set_http token set_token].
  rewrite Htok. cbn [negb length].
  rewrite connect_loop_connected; [reflexivity | exact Hc].
Qed.



(** X6.  When the gateway hands back something that is not a
    [GuildedWebSocket], [connect] passes it to the [error] event, creating
    one task when a handler is registered for it, and returns: it does not
    listen, the client is not made ready, its [ws] is not set, and it is
    not closed. *)
Theorem connect_not_a_websocket (token_arg reconnect gws : pyval)
    (s : list outcome) (c : Client) :
  truthy (py_or token_arg (token (http c))) = true ->
  closed c = false ->
  is_GuildedWebSocket gws = false ->
  result (connect token_arg reconnect (Returns gws :: s) c) = Done tt /\
  events (connect token_arg reconnect (Returns gws :: s) c) =
    [ABuild; ADispatch "error" [gws]] /\
  rest (connect token_arg reconnect (Returns gws :: s) c) = s /\
  loop (final (connect token_arg reconnect (Returns gws :: s) c)) =
    loop c ++ match _listeners c !! "on_error" with
              | Some coro => [CoHandler coro [gws]]
              | None => []
              end /\
  ws (final (connect token_arg reconnect (Returns gws :: s) c)) = ws c /\
  is_ready (final (connect token_arg reconnect (Returns gws :: s) c)) =
    is_ready c /\
  closed (final (connect token_arg reconnect (Returns gws :: s) c)) = false.
Proof.
  unfold closed, is_ready. intros Htok Hc Hg. unfold connect.
  cbn [http set_http token set_token]. rewrite Htok.
  cbn [negb length connect_loop _closed set_http]. rewrite Hc, Hg.
  cbn [negb]. rewrite after_dispatch. cbn [result rest final events emit stop app].
  rewrite dispatch_loop, dispatch_ws, dispatch_ready, dispatch_closed.
  by repeat split.
Qed.

Lemma connect_not_a_websocket_witness :
  events (connect (PyStr "token") (PyBool true) [Returns PyNone]
            sample_client) = [ABuild; ADispatch "error" [PyNone]].
Proof.
  by destruct (connect_not_a_websocket (PyStr "token") (PyBool true) PyNone
                 [] sample_client eq_refl eq_refl eq_refl) as (_ & H & _).
Defined.

(** X7.  Once the gateway has handed back a websocket, and while events keep
    arriving, the client is ready, its [ws] and the HTTP client's are that
    websocket, and the [connect] event has been dispatched before the
    [ready] event, each creating one task when a handler is registered. *)
Theorem connect_establishes (token_arg reconnect : pyval) (i : nat)
    (vs : list pyval) (c : Client) :
  truthy (py_or token_arg (token (http c))) = true ->
  closed c = false ->
  let r := connect token_arg reconnect (Returns (PyGWS i) :: (Returns <$> vs)) c in
  result r = Suspended /\
  events r =
    [ABuild; ADispatch "connect" []; ADispatch "ready" []] ++
    replicate (S (length vs)) (APoll (PyGWS i)) /\
  is_ready (final r) = true /\
  closed (final r) = false /\
  ws (final r) = PyGWS i /\
  http_ws (http (final r)) = PyGWS i /\
  loop (final r) =
    loop c ++
    match _listeners c !! "on_connect" with
    | Some coro => [CoHandler coro []]
    | None => []
    end ++
    match _listeners c !! "on_ready" with
    | Some coro => [CoHandler coro []]
    | None => []
    end.
Proof.
  intros Htok Hc. cbn zeta. unfold closed, is_ready in *.
  rewrite connect_connected by done. cbn zeta.
  rewrite <- (app_nil_r (Returns <$> vs)), listen_loop_polls.
  cbn [listen_loop is_None is_GuildedWebSocket negb result rest final events
       emit stop].
  rewrite app_nil_r.
  rewrite dispatch_ready, dispatch_closed, dispatch_ws, dispatch_http.
  cbn [_ready _closed ws http set_ready].
  rewrite dispatch_closed, dispatch_ws, dispatch_http.
  rewrite !dispatch_loop. cbn [_listeners loop set_ready].
  rewrite dispatch_listeners, dispatch_loop.
  cbn [_closed ws http http_ws set_http set_ws set_http_ws set_token
       _listeners loop].
  rewrite Hc, <- app_assoc.
  repeat split.
  cbn [app]. do 3 f_equal.
  change (replicate (S (length vs)) (APoll (PyGWS i)))
    with (APoll (PyGWS i) :: replicate (length vs) (APoll (PyGWS i))).
  clear. induction vs as [| v vs IH]; [done|]. simpl. by rewrite IH.
Qed.

Lemma connect_establishes_witness :
  is_ready
    (final (connect (PyStr "token") (PyBool true)
              (Returns (PyGWS 0) :: (Returns <$> [PyNone])) sample_client)) =
    true.
Proof.
  by destruct (connect_establishes (PyStr "token") (PyBool true) 0 [PyNone]
                 sample_client eq_refl eq_refl) as (_ & _ & H & _).
Defined.

(** X8.  An exception from [poll_event] other than [WebSocketClosure] is not
    treated as a disconnect: it is raised to the caller of [connect] with
    no [disconnect] notification, no wait and no reconnect attempt, and the
    client is left ready and not closed. *)
Theorem poll_error_propagates (token_arg reconnect : pyval) (i : nat)
    (vs : list pyval) (e : exn) (s : list outcome) (c : Client) :
  truthy (py_or token_arg (token (http c))) = true ->
  closed c = false ->
  e <> WebSocketClosure ->
  let r := connect token_arg reconnect
             (Returns (PyGWS i) :: (Returns <$> vs) ++ Raises e :: s) c in
  result r = Raised e /\
  rest r = s /\
  kinds (events r) = [KBuild] /\
  is_ready (final r) = true /\
  closed (final r) = false.
Proof.
  intros Htok Hc He. cbn zeta. unfold closed, is_ready in *.
  rewrite connect_connected by done. cbn zeta.
  rewrite listen_loop_polls, listen_loop_other by done.
  cbn [result emit stop].
  split; [done|]. split; [done|]. split.
  { rewrite !kinds_emit, kinds_polls. reflexivity. }
  cbn [final emit stop].
  rewrite dispatch_ready, dispatch_closed. cbn [_ready _closed set_ready].
  rewrite dispatch_closed. by split.
Qed.

Lemma poll_error_propagates_witness :
  result (connect (PyStr "token") (PyBool true)
            (Returns (PyGWS 0) :: (Returns <$> [PyNone]) ++
             Raises RuntimeError :: []) sample_client) = Raised RuntimeError.
Proof.
  by destruct (poll_error_propagates (PyStr "token") (PyBool true) 0 [PyNone]
                 RuntimeError [] sample_client eq_refl eq_refl)
    as (H & _).
Defined.

(** X9.  When the reconnect attempt after a closure fails with anything but a
    timeout, [connect] raises that to its caller: the closure has been
    notified and waited for once, and there is no further attempt. *)
Theorem reconnect_error_propagates (token_arg reconnect : pyval) (i : nat)
    (vs : list pyval) (e : exn) (s : list outcome) (c : Client) :
  truthy (py_or token_arg (token (http c))) = true ->
  closed c = false ->
  is_False reconnect = false ->
  e <> TimeoutError ->
  let r := connect token_arg reconnect
             (Returns (PyGWS i) ::
              (Returns <$> vs) ++ Raises WebSocketClosure :: Raises e :: s) c in
  result r = Raised e /\
  rest r = s /\
  kinds (events r) = [KBuild; KClosure; KDisconnect; KSleep; KBuild] /\
  sleeps (events r) = [5] /\
  closed (final r) = false.
Proof.
  intros Htok Hc Hr He. cbn zeta. unfold closed in *.
  rewrite connect_connected by done. cbn zeta.
  rewrite listen_loop_polls, listen_loop_reconnect by done.
  rewrite decide_False by done.
  cbn [result emit stop].
  split; [done|]. split; [done|]. split.
  { rewrite !kinds_emit, kinds_polls. reflexivity. }
  split.
  { rewrite !sleeps_emit, sleeps_polls. by destruct vs. }
  cbn [final emit stop].
  rewrite !dispatch_closed. cbn [_closed set_ready].
  by rewrite dispatch_closed.
Qed.

Lemma reconnect_error_propagates_witness :
  result (connect (PyStr "token") (PyBool true)
            (Returns (PyGWS 0) :: (Returns <$> []) ++
             Raises WebSocketClosure :: Raises ClientException :: [])
            sample_client) = Raised ClientException.
Proof.
  by destruct (reconnect_error_propagates (PyStr "token") (PyBool true) 0 []
                 ClientException [] sample_client eq_refl eq_refl eq_refl)
    as (H & _).
Defined.

(** ** Handlers, once registered *)

(** X10.  Registering a coroutine function named [on_error] replaces the error
    hook: when a handler run through [_run_event] fails, it is that
    function which is awaited, on the event's name followed by the event's
    arguments, and what it raises (a cancellation apart) leaves
    [_run_event]. *)
Theorem event_overrides_on_error (hook coro : callable) (event_name : string)
    (args : list pyval) (e : exn) (c : Client) :
  iscoroutinefunction hook = true ->
  __name__ hook = "on_error" ->
  awaited coro args = Raises e ->
  derives_Exception e = true ->
  on_error (event hook c).2 event_name args =
    awaited hook (PyStr event_name :: args) /\
  (_run_event (event hook c).2 coro event_name args).1 =
    match awaited hook (PyStr event_name :: args) with
    | Raises e' => if decide (e' = CancelledError) then Returns PyNone
                   else Raises e'
    | Returns _ => Returns PyNone
    end.
Proof.
  intros Hco Hname Hfail He.
  assert (Hook : on_error (event hook c).2 event_name args =
                 awaited hook (PyStr event_name :: args)).
  { unfold on_error, event. rewrite Hco, Hname. simpl.
    by rewrite lookup_insert_eq. }
  split; [done|]. unfold _run_event. rewrite Hfail, Hook.
  destruct e; try discriminate He; simpl;
    by destruct (awaited hook (PyStr event_name :: args)) as [v | []].
Qed.

Lemma event_overrides_on_error_witness :
  (_run_event (event (raising_handler "on_error" RuntimeError) sample_client).2
     (raising_handler "on_message" ValueError) "message" []).1 =
    Raises RuntimeError.
Proof.
  by destruct (event_overrides_on_error
                 (raising_handler "on_error" RuntimeError)
                 (raising_handler "on_message" ValueError) "message" []
                 ValueError sample_client eq_refl eq_refl eq_refl eq_refl)
    as (_ & H).
Defined.

(** X11.  [dispatch] starts the handler bare, not through [_run_event]: when the
    loop runs the task it created and the handler raises, the exception
    stays on the task and [on_error] is not called. *)
Theorem dispatch_bypasses_on_error (c : Client) (coro : callable)
    (event_name : string) (args : list pyval) :
  loop c = [] ->
  _listeners c !! ("on_" +:+ event_name) = Some coro ->
  let c' := (dispatch event_name args c).2 in
  (run_tasks c' (loop c')).1.1 = [awaited coro args] /\
  (run_tasks c' (loop c')).1.2 = [CallHandler coro args] /\
  on_error_calls (run_tasks c' (loop c')).1.2 = 0%nat.
Proof.
  intros Hloop Hreg. cbn zeta. rewrite dispatch_loop, Hloop, Hreg.
  cbn [app run_tasks run_coroutine].
  by destruct (awaited coro args) as [v | []].
Qed.

Lemma dispatch_bypasses_on_error_witness :
  (run_tasks
     (dispatch "message" []
        (event (raising_handler "on_message" ValueError) sample_client).2).2
     (loop
        (dispatch "message" []
           (event (raising_handler "on_message" ValueError)
              sample_client).2).2)).1 =
    ([Raises ValueError],
     [CallHandler (raising_handler "on_message" ValueError) []]).
Proof.
  destruct (dispatch_bypasses_on_error
              (event (raising_handler "on_message" ValueError) sample_client).2
              (raising_handler "on_message" ValueError) "message" [])
    as (H1 & H2 & _).
  - reflexivity.
  - vm_compute. reflexivity.
  - cbn zeta in H1, H2.
    destruct (run_tasks _ _) as [[rs calls] esc]. simpl in *. by subst.
Defined.

(** X12.  A handler is reached by [dispatch] only under a name of the form
    [on_] followed by the event's name: registering a coroutine function
    under any other name, one the client does not use itself, changes what
    no dispatch does. *)
Theorem unprefixed_handler_is_never_dispatched (coro : callable) (c : Client)
    (event_name : string) (args : list pyval) :
  iscoroutinefunction coro = true ->
  kind_of_name (__name__ coro) = PlainName ->
  (forall ev, __name__ coro <> "on_" +:+ ev) ->
  (event coro c).1 = Registered coro /\
  loop (dispatch event_name args (event coro c).2).2 =
    loop (dispatch event_name args c).2.
Proof.
  intros Hco Hkind Hname. split.
  { unfold event. by rewrite Hco, Hkind. }
  rewrite !dispatch_loop, event_loop.
  rewrite event_listeners by done.
  by rewrite lookup_insert_ne by apply Hname.
Qed.

Lemma unprefixed_handler_is_never_dispatched_witness :
  loop (dispatch "message" [PyStr "hi"]
          (event (quiet_handler "message") sample_client).2).2 = [].
Proof.
  destruct (unprefixed_handler_is_never_dispatched (quiet_handler "message")
              sample_client "message" [PyStr "hi"]) as [_ H].
  - reflexivity.
  - reflexivity.
  - intros ev Hev. discriminate Hev.
  - rewrite H. reflexivity.
Defined.

(** ** A freshly constructed client *)

Lemma dispatch_without_listeners (event_name : string) (args : list pyval)
    (c : Client) :
  _listeners c = ∅ -> dispatch event_name args c = (Done tt, c).
Proof. intros H. unfold dispatch. by rewrite H, lookup_empty. Qed.

(** X13.  A client just constructed is neither closed nor ready and has no
    handler, so dispatching any event on it does nothing; its startup
    settings hold [members] and [channels] and no other key, whatever keys
    the [cache_on_startup] mapping had, and a usable value given for one of
    the two is kept as it is. *)
Theorem Client_init_fresh (options : gmap string pyval) (c : Client) :
  Client_init options = Done c ->
  closed c = false /\
  is_ready c = false /\
  (forall event_name args, dispatch event_name args c = (Done tt, c)) /\
  (forall key, is_Some (cache_on_startup c !! key) <->
               key = "members" \/ key = "channels") /\
  (forall cache_opt key v,
     options !! "cache_on_startup" = Some (PyDict cache_opt) ->
     key = "members" \/ key = "channels" ->
     dict_get key cache_opt = Some v ->
     truthy v = true ->
     cache_on_startup c !! key = Some v).
Proof.
  unfold Client_init.
  destruct (pop_default "cache_on_startup" (PyDict []) options)
    as [| | | | cache_opt | |] eqn:Hopt; try discriminate.
  intros [= <-]. split; [done|]. split; [done|]. split; [|split].
  - intros event_name args. by apply dispatch_without_listeners.
  - intros key. simpl. split.
    + intros Hsome.
      destruct (decide (key = "channels")) as [-> | Hn1]; [by right|].
      destruct (decide (key = "members")) as [-> | Hn2]; [by left|].
      rewrite !lookup_insert_ne, lookup_empty in Hsome by done.
      by destruct Hsome.
    + intros [-> | ->].
      * rewrite lookup_insert_ne by done. rewrite lookup_insert_eq. eauto.
      * rewrite lookup_insert_eq. eauto.
  - intros cache_opt' key v Hopt' Hkey Hget Hv.
    unfold pop_default in Hopt. rewrite Hopt' in Hopt. simplify_eq.
    assert (Hflag : startup_flag key cache_opt = v).
    { unfold startup_flag, py_or. by rewrite Hget, Hv. }
    simpl. destruct Hkey as [-> | ->].
    + rewrite lookup_insert_ne by done. by rewrite lookup_insert_eq, Hflag.
    + by rewrite lookup_insert_eq, Hflag.
Qed.

Lemma Client_init_fresh_witness :
  exists c,
    Client_init (<["cache_on_startup" :=
                     PyDict [("members", PyInt 1); ("teams", PyBool true)]]> ∅) =
      Done c /\
    cache_on_startup c !! "members" = Some (PyInt 1) /\
    cache_on_startup c !! "teams" = None.
Proof.
  destruct (Client_init
              (<["cache_on_startup" :=
                   PyDict [("members", PyInt 1); ("teams", PyBool true)]]> ∅))
    as [c | e | |] eqn:Hinit; try (vm_compute in Hinit; discriminate Hinit).
  exists c. split; [reflexivity|].
  destruct (Client_init_fresh _ c Hinit) as (_ & _ & _ & Hkeys & Hkept).
  split.
  - apply (Hkept [("members", PyInt 1); ("teams", PyBool true)]);
      [vm_compute; reflexivity | by left | reflexivity | reflexivity].
  - apply eq_None_not_Some. intros Hsome. apply Hkeys in Hsome.
    by destruct Hsome.
Defined.

(** X14.  [cache_on_startup] has to be a mapping when it is given at all:
    [None], a boolean, a number or a string there makes the constructor
    raise [AttributeError], so that passing [False] does not switch startup
    caching off either. *)
Theorem Client_init_rejects_non_mapping (options : gmap string pyval)
    (v : pyval) :
  options !! "cache_on_startup" = Some v ->
  v = PyNone \/ (exists b, v = PyBool b) \/ (exists z, v = PyInt z) \/
    (exists s, v = PyStr s) ->
  Client_init options = Raised AttributeError.
Proof.
  intros Hopt Hv. unfold Client_init, pop_default. rewrite Hopt.
  by destruct Hv as [-> | [[b ->] | [[z ->] | [s ->]]]].
Qed.

Lemma Client_init_rejects_non_mapping_witness :
  Client_init (<["cache_on_startup" := PyBool false]> ∅) =
    Raised AttributeError.
Proof.
  apply (Client_init_rejects_non_mapping _ (PyBool false)).
  - vm_compute. reflexivity.
  - right. left. by exists false.
Defined.

(** * Team members *)

(** X16.  [edit] called with neither [nick] nor [xp] makes no call, reads no
    answer and leaves the member as it was, whatever other keywords it is
    given. *)
Theorem edit_without_nick_or_xp (kwargs : gmap string pyval)
    (script : list outcome) (m : Member) :
  kwargs !! "nick" = None ->
  kwargs !! "xp" = None ->
  edit kwargs script m =
    {| m_result := Done tt; m_rest := script; m_final := m; m_calls := [] |}.
Proof. intros Hn Hx. unfold edit, edit_nick, edit_xp. by rewrite Hn, Hx. Qed.

Lemma edit_without_nick_or_xp_witness :
  m_calls (edit (<["colour" := PyInt 3]> ∅) [Raises HTTPException]
             sample_member) = [].
Proof.
  rewrite (edit_without_nick_or_xp (<["colour" := PyInt 3]> ∅)
             [Raises HTTPException] sample_member); reflexivity.
Defined.

(** X17.  On a member whose [team] is not a team object, [edit] with [nick] or
    [xp] raises [AttributeError] before any call is made: nothing is sent
    and the member is unchanged. *)
Theorem edit_needs_team (kwargs : gmap string pyval) (script : list outcome)
    (m : Member) :
  m_team m = NoTeamObject ->
  is_Some (kwargs !! "nick") \/ is_Some (kwargs !! "xp") ->
  edit kwargs script m =
    {| m_result := Raised AttributeError; m_rest := script; m_final := m;
       m_calls := [] |}.
Proof.
  intros Ht Hk. unfold edit, edit_nick, edit_xp. rewrite Ht.
  destruct (kwargs !! "nick") as [nick|]; [done|].
  destruct Hk as [[? H] | [xp Hxp]]; [discriminate H|].
  simpl. rewrite Hxp, Ht. done.
Qed.

Lemma edit_needs_team_witness :
  m_result (edit (<["xp" := PyInt 5]> ∅) [Returns PyNone]
              (set_nick PyNone
                 {| m_user := m_user sample_member; m_team := NoTeamObject;
                    m_nick := PyNone; m_xp := PyNone |})) =
    Raised AttributeError.
Proof.
  rewrite (edit_needs_team (<["xp" := PyInt 5]> ∅) [Returns PyNone]);
    [reflexivity | reflexivity |].
  right. exists (PyInt 5). vm_compute. reflexivity.
Defined.

(** X18.  [edit] with both [nick] and [xp] is not all-or-nothing.  When the
    nickname call fails, the experience call is never made and the member
    is unchanged; when the nickname call succeeds and the experience call
    fails, the exception is raised with the member's nickname already
    replaced and its experience not. *)
Theorem edit_failure_is_partial (kwargs : gmap string pyval) (nick xp : pyval)
    (team_id v : pyval) (e : exn) (s : list outcome) (m : Member) :
  kwargs !! "nick" = Some nick ->
  kwargs !! "xp" = Some xp ->
  m_team m = TeamObject team_id ->
  edit kwargs (Raises e :: s) m =
    {| m_result := Raised e; m_rest := s; m_final := m;
       m_calls := [nick_call team_id m nick] |} /\
  edit kwargs (Returns v :: Raises e :: s) m =
    {| m_result := Raised e; m_rest := s; m_final := set_nick nick m;
       m_calls := [nick_call team_id m nick;
                   set_team_member_xp team_id (attr (u_id (m_user m))) xp] |}.
Proof.
  intros Hn Hx Ht. unfold edit, edit_nick, edit_xp, nick_call.
  by rewrite Hn, Ht; simpl; rewrite Hx, ?Ht.
Qed.

Lemma edit_failure_is_partial_witness :
  m_nick (m_final (edit (<["nick" := PyStr "nan"]> (<["xp" := PyInt 5]> ∅))
                     [Returns PyNone; Raises HTTPException] sample_member)) =
    PyStr "nan" /\
  m_xp (m_final (edit (<["nick" := PyStr "nan"]> (<["xp" := PyInt 5]> ∅))
                   [Returns PyNone; Raises HTTPException] sample_member)) =
    PyInt 10.
Proof.
  destruct (edit_failure_is_partial
              (<["nick" := PyStr "nan"]> (<["xp" := PyInt 5]> ∅))
              (PyStr "nan") (PyInt 5) (PyStr "t1") PyNone HTTPException []
              sample_member) as [_ H];
    [vm_compute; reflexivity | vm_compute; reflexivity | reflexivity |].
  rewrite H. by split.
Defined.

(** X19.  When [edit] returns, the member's nickname and experience are the ones
    given (and the ones it had where none was given), nothing else of it
    has changed, one call was made per keyword given, the nickname's
    first, a [None] nickname through the reset call, and one answer was
    read per call.  The display name is then the new nickname when that is
    usable and the member's name otherwise. *)
Theorem edit_success (kwargs : gmap string pyval) (script : list outcome)
    (m : Member) :
  m_result (edit kwargs script m) = Done tt ->
  m_final (edit kwargs script m) =
    {| m_user := m_user m; m_team := m_team m;
       m_nick := default (m_nick m) (kwargs !! "nick");
       m_xp := default (m_xp m) (kwargs !! "xp") |} /\
  (forall team_id, m_team m = TeamObject team_id ->
     m_calls (edit kwargs script m) =
       match kwargs !! "nick" with
       | Some nick => [nick_call team_id m nick]
       | None => []
       end ++
       match kwargs !! "xp" with
       | Some xp => [set_team_member_xp team_id (attr (u_id (m_user m))) xp]
       | None => []
       end) /\
  length script =
    (length (m_calls (edit kwargs script m)) +
     length (m_rest (edit kwargs script m)))%nat /\
  (forall nick, kwargs !! "nick" = Some nick ->
     display_name (m_final (edit kwargs script m)) =
       if truthy nick then nick else attr (u_name (m_user m))).
Proof.
  unfold edit, edit_nick, edit_xp, nick_call, display_name, py_or.
  destruct m as [u t n x]. simpl.
  destruct (kwargs !! "nick") as [nick|], (kwargs !! "xp") as [xp|],
    t as [tid|]; simpl; try discriminate;
    destruct script as [| [v | e] [| [v' | e'] s]]; simpl; try discriminate;
    intros _; repeat split; try done; try (by intros ? [= ->]);
    try (by intros ? [= <-]).
Qed.

Lemma edit_success_witness :
  display_name
    (m_final (edit (<["nick" := PyNone]> ∅) [Returns PyNone] sample_member)) =
    PyStr "Ann" /\
  m_calls (edit (<["nick" := PyNone]> ∅) [Returns PyNone] sample_member) =
    [reset_team_member_nickname (PyStr "t1") (PyStr "m1")].
Proof.
  destruct (edit_success (<["nick" := PyNone]> ∅) [Returns PyNone]
              sample_member) as (_ & Hcalls & _ & Hname); [reflexivity|].
  split.
  - rewrite (Hname PyNone); [reflexivity | vm_compute; reflexivity].
  - rewrite (Hcalls (PyStr "t1")); reflexivity.
Defined.

(** * Messages *)

Ltac unfold_built :=
  unfold mbind, built_bind, mret, built_ret in *; simpl in *.

Lemma set_bot_own (a : author_obj) (webhook_id bot_id : pyval) :
  set_bot (created_by_bot_of (Some a) webhook_id bot_id) a = a.
Proof. by destruct a. Qed.

(** X20.  A message cannot be built from a payload whose message part lacks
    [id], or has it and lacks [channelId]: the constructor raises
    [KeyError] for that key, before anything else is looked at. *)
Theorem ChatMessage_init_missing_key (ISO8601 : pyval -> outcome)
    (lower : string -> string)
    (lookup_team_member : pyval -> pyval -> option author_obj)
    (lookup_user : pyval -> option author_obj)
    (create_user : pyval -> built author_obj)
    (channel : option message_channel) (data : pyval)
    (m : list (string * pyval)) (extra_team : pyval)
    (extra_author : option author_obj) :
  message_part data = Built (PyDict m) ->
  (dict_get "id" m = None ->
   ChatMessage_init ISO8601 lower lookup_team_member lookup_user create_user
     channel data extra_team extra_author = Failed (KeyError "id")) /\
  (is_Some (dict_get "id" m) ->
   dict_get "channelId" m = None ->
   ChatMessage_init ISO8601 lower lookup_team_member lookup_user create_user
     channel data extra_team extra_author = Failed (KeyError "channelId")).
Proof.
  intros Hm. unfold ChatMessage_init. rewrite Hm. unfold_built.
  split.
  - intros Hid. by rewrite Hid.
  - intros [id Hid] Hch. by rewrite Hid, Hch.
Qed.

Lemma ChatMessage_init_missing_key_witness :
  ChatMessage_init (fun v => Returns v) (fun s => s) (fun _ _ => None)
    (fun _ => None) (fun _ => Failed (Error ValueError)) None
    (PyDict [("message", PyDict [("id", PyStr "m1"); ("content", PyStr "hi")])])
    PyNone None = Failed (KeyError "channelId").
Proof.
  destruct (ChatMessage_init_missing_key (fun v => Returns v) (fun s => s)
              (fun _ _ => None) (fun _ => None)
              (fun _ => Failed (Error ValueError)) None
              (PyDict [("message",
                        PyDict [("id", PyStr "m1"); ("content", PyStr "hi")])])
              [("id", PyStr "m1"); ("content", PyStr "hi")] PyNone None
              eq_refl) as [_ H].
  apply H; [by eexists | reflexivity].
Defined.

(** X21.  What a message that was built holds: the [id] and [channelId] of the
    payload's message part; as author's ID the webhook's ID when that is
    usable, else the bot's ID when that is usable, else the [createdBy]
    of the message part, which then has to be there; as content the
    payload's, or the empty string when it has none. *)
Theorem ChatMessage_init_built (ISO8601 : pyval -> outcome)
    (lower : string -> string)
    (lookup_team_member : pyval -> pyval -> option author_obj)
    (lookup_user : pyval -> option author_obj)
    (create_user : pyval -> built author_obj)
    (channel : option message_channel) (data : pyval) (extra_team : pyval)
    (extra_author : option author_obj) (msg : ChatMessage) :
  ChatMessage_init ISO8601 lower lookup_team_member lookup_user create_user
    channel data extra_team extra_author = Built msg ->
  exists m,
    message_part data = Built (PyDict m) /\
    dict_get "id" m = Some (msg_id msg) /\
    dict_get "channelId" m = Some (msg_channel_id msg) /\
    msg_webhook_id msg = attr (dict_get "createdByWebhookId" m) /\
    msg_bot_id msg = attr (dict_get "createdByBotId" m) /\
    (if truthy (msg_webhook_id msg) then msg_author_id msg = msg_webhook_id msg
     else if truthy (msg_bot_id msg) then msg_author_id msg = msg_bot_id msg
     else dict_get "createdBy" m = Some (msg_author_id msg)) /\
    msg_content msg = default (PyStr "") (dict_get "content" m) /\
    msg_channel msg = channel.
Proof.
  unfold ChatMessage_init. intros H.
  destruct (message_part data) as [message | e] eqn:Hm;
    unfold_built; [|discriminate H].
  destruct message as [| | | | m | |]; try discriminate H.
  exists m. split; [done|]. unfold author_id_of, subscript in H.
  destruct (dict_get "id" m) as [id|]; [|discriminate H].
  destruct (dict_get "channelId" m) as [cid|]; simpl in H; [|discriminate H].
  destruct (get data "createdAt") as [created | ?]; simpl in H;
    [|discriminate H].
  destruct (ISO8601 (attr created)) as [ca | ?]; simpl in H; [|discriminate H].
  destruct (ISO8601 (attr (dict_get "updatedAt" m))) as [ua | ?]; simpl in H;
    [|discriminate H].
  destruct (ISO8601 (attr (dict_get "deletedAt" m))) as [da | ?]; simpl in H;
    [|discriminate H].
  destruct (truthy (attr (dict_get "createdByWebhookId" m))) eqn:Hw.
  { simpl in H.
    destruct (match extra_author with Some a => _ | None => _ end)
      as [author | ?]; simpl in H; [|discriminate H].
    injection H as <-. simpl. rewrite Hw. by repeat split. }
  destruct (truthy (attr (dict_get "createdByBotId" m))) eqn:Hb.
  { simpl in H.
    destruct (match extra_author with Some a => _ | None => _ end)
      as [author | ?]; simpl in H; [|discriminate H].
    injection H as <-. simpl. rewrite Hw, Hb. by repeat split. }
  destruct (dict_get "createdBy" m) as [aid|] eqn:Hc; simpl in H;
    [|discriminate H].
  destruct (match extra_author with Some a => _ | None => _ end)
    as [author | ?]; simpl in H; [|discriminate H].
  injection H as <-. simpl. rewrite Hw, Hb. by repeat split.
Qed.

Lemma ChatMessage_init_built_witness :
  exists msg,
    ChatMessage_init (fun v => Returns v) (fun s => s) (fun _ _ => None)
      (fun _ => None) (fun _ => Failed (Error ValueError)) None
      sample_payload PyNone (Some sample_author) = Built msg /\
    msg_author_id msg = PyStr "w1" /\ msg_content msg = PyStr "".
Proof.
  eexists. split; [reflexivity|].
  destruct (ChatMessage_init_built (fun v => Returns v) (fun s => s)
              (fun _ _ => None) (fun _ => None)
              (fun _ => Failed (Error ValueError)) None
              sample_payload PyNone (Some sample_author) _ eq_refl)
    as (m & Hm & _ & _ & _ & _ & Hid & Hcontent & _).
  injection Hm as <-. split; [exact Hid | exact Hcontent].
Defined.

(** X22.  Building a message leaves its author as it is.  An author given to
    the constructor is the message's author, and one resolved through the
    caches is the object the lookup gave; in both cases the assignment to
    the author's [bot] attribute writes back the value it already had, so
    that [created_by_bot] is the author's own flag even for a message that
    carries a webhook's or a bot's ID. *)
Theorem ChatMessage_init_keeps_author (ISO8601 : pyval -> outcome)
    (lower : string -> string)
    (lookup_team_member : pyval -> pyval -> option author_obj)
    (lookup_user : pyval -> option author_obj)
    (create_user : pyval -> built author_obj)
    (channel : option message_channel) (data : pyval) (extra_team : pyval)
    (extra_author : option author_obj) (msg : ChatMessage) :
  ChatMessage_init ISO8601 lower lookup_team_member lookup_user create_user
    channel data extra_team extra_author = Built msg ->
  match extra_author with
  | Some a => msg_author msg = Some a /\ created_by_bot msg = a_bot a
  | None =>
      resolve_author lower lookup_team_member lookup_user create_user data
        (msg_team msg) (msg_team_id msg) (msg_author_id msg) =
        Built (msg_author msg)
  end.
Proof.
  unfold ChatMessage_init. intros H.
  destruct (message_part data) as [message | e];
    unfold_built; [|discriminate H].
  destruct (subscript message "id") as [id | ?]; simpl in H; [|discriminate H].
  destruct (subscript message "channelId") as [cid | ?]; simpl in H;
    [|discriminate H].
  destruct (get message "teamId") as [tid | ?]; simpl in H; [|discriminate H].
  destruct (get data "createdAt") as [created | ?]; simpl in H;
    [|discriminate H].
  destruct (of_outcome (ISO8601 (attr created))) as [ca | ?]; simpl in H;
    [|discriminate H].
  destruct (get message "updatedAt") as [updated | ?]; simpl in H;
    [|discriminate H].
  destruct (of_outcome (ISO8601 (attr updated))) as [ua | ?]; simpl in H;
    [|discriminate H].
  destruct (get message "deletedAt") as [deleted | ?]; simpl in H;
    [|discriminate H].
  destruct (of_outcome (ISO8601 (attr deleted))) as [da | ?]; simpl in H;
    [|discriminate H].
  destruct (get message "createdByWebhookId") as [wid | ?]; simpl in H;
    [|discriminate H].
  destruct (get message "createdByBotId") as [bid | ?]; simpl in H;
    [|discriminate H].
  destruct (author_id_of (attr wid) (attr bid) message) as [aid | ?];
    simpl in H; [|discriminate H].
  destruct extra_author as [a|].
  - simpl in H.
    destruct (get message "content") as [content | ?]; simpl in H;
      [|discriminate H].
    injection H as <-. unfold created_by_bot. simpl. destruct a. by split.
  - destruct (resolve_author _ _ _ _ _ _ _ _) as [author | ?] eqn:Hres;
      simpl in H; [|discriminate H].
    destruct (get message "content") as [content | ?]; simpl in H;
      [|discriminate H].
    injection H as <-. simpl. unfold mbind, built_bind in Hres. rewrite Hres.
    f_equal. destruct author as [a|]; [|done]. by destruct a.
Qed.

Lemma ChatMessage_init_keeps_author_witness :
  exists msg,
    ChatMessage_init (fun v => Returns v) (fun s => s) (fun _ _ => None)
      (fun _ => None) (fun _ => Failed (Error ValueError)) None
      sample_payload PyNone (Some sample_author) = Built msg /\
    msg_webhook_id msg = PyStr "w1" /\
    created_by_bot msg = PyBool false.
Proof.
  eexists. split; [reflexivity|]. split; [reflexivity|].
  by destruct (ChatMessage_init_keeps_author (fun v => Returns v) (fun s => s)
                 (fun _ _ => None) (fun _ => None)
                 (fun _ => Failed (Error ValueError)) None
                 sample_payload PyNone (Some sample_author) _ eq_refl)
    as [_ H].
Defined.

(** X23.  A message built with no team, neither given nor on its channel, and
    no author given has as author what the user cache holds for its
    author's ID, whatever its channel type says; a [channelType] that is
    there but is no string makes the constructor fail with
    [AttributeError]. *)
Theorem resolve_author_without_team (lower : string -> string)
    (lookup_team_member : pyval -> pyval -> option author_obj)
    (lookup_user : pyval -> option author_obj)
    (create_user : pyval -> built author_obj)
    (items : list (string * pyval)) (team_id author_id : pyval) :
  match default (PyStr "") (dict_get "channelType" items) with
  | PyStr _ =>
      resolve_author lower lookup_team_member lookup_user create_user
        (PyDict items) PyNone team_id author_id = Built (lookup_user author_id)
  | _ =>
      forall team,
        resolve_author lower lookup_team_member lookup_user create_user
          (PyDict items) team team_id author_id = Failed (Error AttributeError)
  end.
Proof.
  unfold resolve_author, channel_type. unfold_built.
  destruct (default (PyStr "") (dict_get "channelType" items)); try done.
  simpl. rewrite andb_false_r, orb_true_r. done.
Qed.

(** X24.  [update] replaces the content only once the call has returned: when
    the call fails the message is unchanged.  Once it has returned, the
    content is the new one also when reading the answer then fails; and
    when all goes well the time of the update is the answer's, or the
    clock's when the answer has none, and nothing else has changed. *)
Theorem update_replaces_content (ISO8601 : pyval -> outcome)
    (now content : pyval) (answer : outcome) (m : ChatMessage) :
  match answer with
  | Raises e => update ISO8601 now content answer m = (Failed (Error e), m)
  | Returns response =>
      msg_content (update ISO8601 now content answer m).2 = content /\
      msg_id (update ISO8601 now content answer m).2 = msg_id m /\
      msg_author (update ISO8601 now content answer m).2 = msg_author m /\
      (forall o t,
         get response "updatedAt" = Built o ->
         ISO8601 (attr o) = Returns t ->
         update ISO8601 now content answer m =
           (Built tt, set_updated_at (if truthy t then t else now)
                        (set_content content m)))
  end.
Proof.
  unfold update. destruct answer as [response | e]; [|done].
  destruct (get response "updatedAt") as [o | e] eqn:Hget.
  - destruct (ISO8601 (attr o)) as [t | e] eqn:Hiso; simpl.
    + repeat split. intros o' t' [= <-]. rewrite Hiso. by intros [= <-].
    + repeat split. intros o' t' [= <-]. by rewrite Hiso.
  - simpl. repeat split. intros o t H. discriminate H.
Qed.

Lemma update_replaces_content_witness :
  update (fun v => Returns v) (PyStr "now") (PyStr "edited")
    (Returns (PyDict [])) sample_message =
  (Built tt,
   set_updated_at (PyStr "now") (set_content (PyStr "edited") sample_message)).
Proof.
  destruct (update_replaces_content (fun v => Returns v) (PyStr "now")
              (PyStr "edited") (Returns (PyDict [])) sample_message)
    as (_ & _ & _ & H).
  apply (H None PyNone); reflexivity.
Defined.

(** * Links and mentions *)

Lemma append_close_inj (s1 s2 : string) : s1 +:+ ">" = s2 +:+ ">" -> s1 = s2.
Proof.
  revert s2. induction s1 as [| a s1 IH]; intros [| b s2] H; simpl in H.
  - done.
  - injection H as _ H. by destruct s2.
  - injection H as _ H. by destruct s1.
  - injection H as -> H. f_equal. by apply IH.
Qed.

(** X25.  A user built from a payload has a vanity link exactly when the payload
    gives it a usable subdomain: a payload without [subdomain], or with
    [None] or the empty string there, gives a user whose [vanity_url] is
    [None], and any other string gives the link under [guilded.gg]. *)
Theorem vanity_url_of_built_user (str_of : pyval -> string)
    (items : list (string * pyval)) (u : User) :
  (forall s, str_of (PyStr s) = s) ->
  dict_get "user" items = None ->
  User_init (PyDict items) = Done u ->
  (vanity_url str_of u = None <->
   truthy (attr (dict_get "subdomain" items)) = false) /\
  (forall s, dict_get "subdomain" items = Some (PyStr s) -> s <> "" ->
     vanity_url str_of u = Some ("https://guilded.gg/" +:+ s)).
Proof.
  intros Hstr Huser. unfold User_init, user_fields. rewrite Huser.
  destruct (user_payload_ok items); [|discriminate]. intros [= <-].
  unfold vanity_url. simpl. split.
  - by destruct (truthy (attr (dict_get "subdomain" items))).
  - intros s Hs Hne. rewrite Hs. simpl.
    destruct (String.eqb_spec s ""); [done|]. simpl. by rewrite Hstr.
Qed.

Lemma vanity_url_of_built_user_witness :
  exists u,
    User_init (PyDict [("id", PyStr "u1"); ("subdomain", PyStr "ann")]) =
      Done u /\
    vanity_url sample_str u = Some "https://guilded.gg/ann".
Proof.
  eexists. split; [reflexivity|].
  destruct (vanity_url_of_built_user sample_str
              [("id", PyStr "u1"); ("subdomain", PyStr "ann")] _
              (fun s => eq_refl) eq_refl eq_refl) as [_ H].
  apply (H "ann"); [reflexivity | discriminate].
Defined.

(** X26.  Users with different string IDs have different mentions and different
    profile links: the ID can be read back from either. *)
Theorem mention_determines_id (str_of : pyval -> string) (u v : User)
    (a b : string) :
  (forall s, str_of (PyStr s) = s) ->
  u_id u = Some (PyStr a) ->
  u_id v = Some (PyStr b) ->
  (mention str_of u = mention str_of v -> a = b) /\
  (profile_url str_of u = profile_url str_of v -> a = b).
Proof.
  intros Hstr Hu Hv. unfold mention, profile_url. rewrite Hu, Hv. simpl.
  rewrite !Hstr. split; intros H.
  - injection H as H. by apply append_close_inj.
  - by simplify_eq.
Qed.

Lemma mention_determines_id_witness :
  mention sample_str (a_user sample_author) = "<@u1>" /\
  (mention sample_str (a_user sample_author) =
     mention sample_str (m_user sample_member) -> "u1" = "m1").
Proof.
  split; [reflexivity|].
  apply (mention_determines_id sample_str (a_user sample_author)
           (m_user sample_member) "u1" "m1" (fun s => eq_refl) eq_refl eq_refl).
Defined.

(** * Starting over *)

Lemma set_token_same (c : Client) :
  set_http (set_token (token (http c)) (http c)) c = c.
Proof. by destruct c as [[] ? ? ? ? ? ? ? ? ?]. Qed.

Lemma py_or_idem (a b : pyval) : py_or a (py_or a b) = py_or a b.
Proof. unfold py_or. by destruct (truthy a) eqn:E; rewrite ?E. Qed.

Lemma listen_loop_no_websocket (reconnect : pyval) (s : list outcome)
    (b : Z) (c : Client) :
  listen_loop reconnect s PyNone b c = stop (Done tt) s c.
Proof. by destruct s. Qed.

(** The bound on the iterations plays no part once it exceeds the number
    of answers. *)
Lemma connect_loop_fuel_irrelevant (reconnect : pyval) (fuel : nat) :
  forall fuel' script c,
    (length script < fuel)%nat ->
    (length script < fuel')%nat ->
    connect_loop fuel reconnect script c = connect_loop fuel' reconnect script c.
Proof.
  induction fuel as [| fuel IH]; intros fuel' script c Hl Hl'.
  { exfalso. revert Hl. apply Nat.nlt_0_r. }
  destruct fuel' as [| fuel']; [exfalso; revert Hl'; apply Nat.nlt_0_r|].
  destruct (_closed c) eqn:Hc.
  { simpl. by rewrite Hc. }
  destruct script as [| [gws | e0] s]; [simpl; by rewrite Hc | |
                                        simpl; by rewrite Hc].
  destruct (is_GuildedWebSocket gws) eqn:Hg.
  2: { simpl. by rewrite Hc, Hg. }
  destruct gws; try discriminate Hg.
  rewrite !connect_loop_connected by done. cbn zeta. unfold listen_socks.
  set (c5 := (dispatch "ready" [] _).2).
  destruct (listen_loop_sound reconnect s (PyGWS sock) 5 c5) as (Hs & _ & _).
  apply suffix_length in Hs. simpl in Hl, Hl'.
  destruct (result (listen_loop reconnect s (PyGWS sock) 5 c5)); try done.
  do 2 f_equal. apply IH; lia.
Qed.

(** X15.  When the reconnect after a closure gives back [None] instead of a
    websocket, the listening loop ends and [connect] starts over: from
    there on it does what a fresh call of [connect] would do on the client
    as it then is, with a new connection attempt and the [connect] and
    [ready] events dispatched again. *)
Theorem reconnect_without_websocket_starts_over (token_arg reconnect : pyval)
    (i : nat) (vs : list pyval) (s : list outcome) (c : Client) :
  truthy (py_or token_arg (token (http c))) = true ->
  closed c = false ->
  is_False reconnect = false ->
  let before :=
    Returns (PyGWS i) ::
    (Returns <$> vs) ++ [Raises WebSocketClosure; Returns PyNone] in
  let c' := final (connect token_arg reconnect before c) in
  connect token_arg reconnect (before ++ s) c =
    emit ([ABuild; ADispatch "connect" []; ADispatch "ready" []] ++
          replicate (length vs) (APoll (PyGWS i)) ++
          [APoll (PyGWS i); ALog (LogReconnecting 5);
           ADispatch "disconnect" []; ASleep 5; ABuild])
      (connect token_arg reconnect s c').
Proof.
  intros Htok Hc Hr. cbn zeta. unfold closed in Hc.
  assert (Hstep : forall s',
    connect token_arg reconnect
      ((Returns (PyGWS i) ::
        (Returns <$> vs) ++ [Raises WebSocketClosure; Returns PyNone]) ++ s') c =
    emit ([ABuild; ADispatch "connect" []; ADispatch "ready" []] ++
          replicate (length vs) (APoll (PyGWS i)) ++
          [APoll (PyGWS i); ALog (LogReconnecting 5);
           ADispatch "disconnect" []; ASleep 5; ABuild])
      (connect_loop (S (length s')) reconnect s'
         (dispatch "disconnect" []
            (dispatch "ready" []
               (set_ready true
                  (dispatch "connect" []
                     (set_http
                        (set_http_ws (PyGWS i)
                           (http (set_http
                                    (set_token
                                       (py_or token_arg (token (http c)))
                                       (http c)) c)))
                        (set_ws (PyGWS i)
                           (set_http
                              (set_token (py_or token_arg (token (http c)))
                                 (http c)) c)))).2)).2).2)).
  { intros s'. cbn [app]. rewrite <- app_assoc. cbn [app].
    rewrite connect_connected by done. cbn zeta.
    rewrite listen_loop_polls, listen_loop_reconnect by done.
    rewrite listen_loop_no_websocket.
    cbn [result rest final events emit stop].
    rewrite !emit_emit. rewrite !app_nil_r.
    assert (Hvs : (match vs with [] => 5 | _ :: _ => 5 end) = 5)
      by by destruct vs.
    rewrite Hvs. cbn [app]. f_equal.
    apply connect_loop_fuel_irrelevant; rewrite ?length_app; simpl; lia. }
  rewrite Hstep. f_equal.
  specialize (Hstep []). rewrite app_nil_r in Hstep. rewrite Hstep.
  set (c1 := (dispatch "disconnect" [] _).2).
  assert (Hc1 : _closed c1 = false).
  { subst c1. rewrite !dispatch_closed. cbn [_closed set_ready].
    by rewrite dispatch_closed. }
  assert (Ht1 : token (http c1) = py_or token_arg (token (http c))).
  { subst c1. rewrite !dispatch_token. cbn [http set_ready].
    by rewrite dispatch_token. }
  assert (Hfin : forall pre,
            final (emit pre (connect_loop (S (length (@nil outcome)))
                               reconnect [] c1)) = c1).
  { intros pre. cbn [length connect_loop final emit]. by rewrite Hc1. }
  rewrite Hfin. clearbody c1.
  unfold connect. rewrite Ht1, py_or_idem, <- Ht1, set_token_same.
  rewrite Ht1, Htok. reflexivity.
Qed.

Lemma reconnect_without_websocket_starts_over_witness :
  kinds (events (connect (PyStr "token") (PyBool true)
                   ((Returns (PyGWS 0) ::
                     (Returns <$> []) ++
                     [Raises WebSocketClosure; Returns PyNone]) ++
                    [Returns (PyGWS 1)]) sample_client)) =
    [KBuild; KClosure; KDisconnect; KSleep; KBuild; KBuild].
Proof.
  rewrite (reconnect_without_websocket_starts_over (PyStr "token")
             (PyBool true) 0 [] [Returns (PyGWS 1)] sample_client
             eq_refl eq_refl eq_refl).
  reflexivity.
Defined.
